(** * HRMS API: leave ledger, department registry and employee directory

    A shallow embedding of the request handlers of [hrms-api/routers]
    ([leaves.py], [departments.py], [employees.py]) over the tables declared
    in [hrms-api/models/database_models.py], followed by the properties of
    the leave-request lifecycle, the overlap rule and the cross-entity
    reference rules.

    The modules below carry the names of the Python modules they embed. *)

From Stdlib Require Import ZArith List Bool.
From Stdlib Require Import PrimFloat.
From stdpp Require Import gmap strings list fin_maps.

Local Open Scope Z_scope.

(** ** [datetime.date]

    A calendar date, compared the way Python compares dates: by year, then
    month, then day. *)

Record date : Type := Date { year : Z; month : Z; day : Z }.

Definition date_ltb (d1 d2 : date) : bool :=
  (year d1 <? year d2)
  || ((year d1 =? year d2)
      && ((month d1 <? month d2)
          || ((month d1 =? month d2) && (day d1 <? day d2)))).

(** [d1 > d2] is [d2 < d1]. *)
Definition date_gtb (d1 d2 : date) : bool := date_ltb d2 d1.

Definition date_leb (d1 d2 : date) : bool := negb (date_ltb d2 d1).

(** ** models/database_models.py *)

Module database_models.

Inductive EmployeeStatusEnum : Type := ACTIVE | INACTIVE | ON_LEAVE.

Inductive LeaveTypeEnum : Type :=
  SICK | VACATION | PERSONAL | UNPAID | MATERNITY | PATERNITY.

Inductive LeaveStatusEnum : Type := PENDING | APPROVED | REJECTED | CANCELLED.

Definition LeaveStatusEnum_eqb (a b : LeaveStatusEnum) : bool :=
  match a, b with
  | PENDING, PENDING | APPROVED, APPROVED
  | REJECTED, REJECTED | CANCELLED, CANCELLED => true
  | _, _ => false
  end.

(** Rows are stored under their primary key [id]; the key is not repeated
    inside the row. *)

(** Table [departments]; [manager_id] is a nullable foreign key to
    [employees.id]. *)
Module DepartmentModel.
Record t : Type := Build {
  name : string;
  description : string;
  manager_id : option Z
}.
End DepartmentModel.

(** Table [employees]; [department_id] is a foreign key to
    [departments.id]. The Float column [salary] holds a binary64
    floating-point number. *)
Module EmployeeModel.
Record t : Type := Build {
  first_name : string;
  last_name : string;
  email : string;
  phone : string;
  department_id : Z;
  position : string;
  hire_date : date;
  salary : PrimFloat.float;
  status : EmployeeStatusEnum
}.
End EmployeeModel.

(** Table [leave_requests]; [employee_id] and the nullable [approved_by]
    are foreign keys to [employees.id]. *)
Module LeaveRequestModel.
Record t : Type := Build {
  employee_id : Z;
  leave_type : LeaveTypeEnum;
  start_date : date;
  end_date : date;
  reason : string;
  status : LeaveStatusEnum;
  approved_by : option Z;
  created_at : date
}.
End LeaveRequestModel.

Definition LeaveTypeEnum_eqb (a b : LeaveTypeEnum) : bool :=
  match a, b with
  | SICK, SICK | VACATION, VACATION | PERSONAL, PERSONAL
  | UNPAID, UNPAID | MATERNITY, MATERNITY | PATERNITY, PATERNITY => true
  | _, _ => false
  end.

Definition EmployeeStatusEnum_eqb (a b : EmployeeStatusEnum) : bool :=
  match a, b with
  | ACTIVE, ACTIVE | INACTIVE, INACTIVE | ON_LEAVE, ON_LEAVE => true
  | _, _ => false
  end.

End database_models.

(** ** pydantic

    A model of [schemas.py] validates its fields when it is built, and
    building it raises [ValidationError] when a field is refused. Two of
    the validators the schemas use are library code: the type [EmailStr]
    (the package email-validator) and the constraint [pattern] (a
    regular-expression engine). They are parameters of the handlers that
    build a model. *)

Module pydantic.

Record validators : Type := Build {
  (** [EmailStr]: the address in normal form, or [None] when the string
      is refused as an address. *)
  EmailStr : string → option string;
  (** [pattern regex s]: whether the string [s] matches [regex]. *)
  pattern : string → string → bool
}.

(** [min_length=lo, max_length=hi] on a string. *)
Definition length_between (lo hi : nat) (s : string) : bool :=
  (lo <=? String.length s)%nat && (String.length s <=? hi)%nat.

End pydantic.

(** ** models/schemas.py

    The records are the values the handlers receive and return. The bounds
    that the schemas of request bodies put on single fields ([gt=0],
    [min_length], [max_length]) are checked by the framework before a
    handler runs, and no handler relies on them. *)

Module schemas.

Inductive LeaveType : Type :=
  SICK | VACATION | PERSONAL | UNPAID | MATERNITY | PATERNITY.

Inductive LeaveStatus : Type := PENDING | APPROVED | REJECTED | CANCELLED.

(** [LeaveRequestCreate]: the body of a create call. It has no status,
    approver or creation-date field. *)
Module LeaveRequestCreate.
Record t : Type := Build {
  employee_id : Z;
  leave_type : LeaveType;
  start_date : date;
  end_date : date;
  reason : string
}.
End LeaveRequestCreate.

(** A field of a partial-update body: left out of the body ([Unset]), or
    set, possibly to [None] (all four fields are [Optional]). *)
Inductive field (A : Type) : Type :=
| Unset : field A
| SetTo : option A → field A.
Arguments Unset {A}.
Arguments SetTo {A} _.

Module LeaveRequestUpdate.
Record t : Type := Build {
  leave_type : field LeaveType;
  start_date : field date;
  end_date : field date;
  reason : field string
}.
End LeaveRequestUpdate.

(** [LeaveRequest]: the response schema. *)
Module LeaveRequest.
Record t : Type := Build {
  id : Z;
  employee_id : Z;
  leave_type : LeaveType;
  start_date : date;
  end_date : date;
  reason : string;
  status : LeaveStatus;
  approved_by : option Z;
  created_at : date
}.
End LeaveRequest.

Module LeaveApproval.
Record t : Type := Build {
  approved : bool;
  approved_by : Z;
  comments : option string
}.
End LeaveApproval.

Inductive EmployeeStatus : Type := ACTIVE | INACTIVE | ON_LEAVE.

(** [Employee]: the response schema of the employee directory. *)
Module Employee.
Record t : Type := Build {
  id : Z;
  first_name : string;
  last_name : string;
  email : string;
  phone : string;
  department_id : Z;
  position : string;
  hire_date : date;
  salary : PrimFloat.float;
  status : EmployeeStatus
}.

(** [Employee(id=..., first_name=..., ...)]: the model with the given
    field values, the address in normal form, or [None] (a
    [ValidationError]) when a field breaks a bound of [EmployeeBase]:
    [min_length=1, max_length=50] on the names, [EmailStr],
    [pattern=r'^\+?1?\d{9,15}$'] on the phone, [gt=0] on the department,
    [min_length=1, max_length=100] on the position, [gt=0] on the salary
    (false for a salary that is not a number). *)
Definition init (v : pydantic.validators)
    (id : Z) (first_name last_name email phone : string) (department_id : Z)
    (position : string) (hire_date : date) (salary : PrimFloat.float)
    (status : EmployeeStatus) : option t :=
  match pydantic.EmailStr v email with
  | None => None
  | Some email =>
      if pydantic.length_between 1 50 first_name
         && pydantic.length_between 1 50 last_name
         && pydantic.pattern v "^\+?1?\d{9,15}$" phone
         && (department_id >? 0)
         && pydantic.length_between 1 100 position
         && PrimFloat.ltb PrimFloat.zero salary
      then Some (Build id first_name last_name email phone department_id
                   position hire_date salary status)
      else None
  end.
End Employee.

(** [Department]: the response schema of the department registry. *)
Module Department.
Record t : Type := Build {
  id : Z;
  name : string;
  description : string;
  manager_id : option Z;
  employee_count : Z
}.
End Department.

End schemas.

(** Conversions between the schema enumerations and the table enumerations
    go through the shared string value: [LeaveTypeEnum(x.value)],
    [LeaveType(x.value)], [LeaveStatus(x.value)]. *)

Definition LeaveTypeEnum_of (x : schemas.LeaveType) : database_models.LeaveTypeEnum :=
  match x with
  | schemas.SICK => database_models.SICK
  | schemas.VACATION => database_models.VACATION
  | schemas.PERSONAL => database_models.PERSONAL
  | schemas.UNPAID => database_models.UNPAID
  | schemas.MATERNITY => database_models.MATERNITY
  | schemas.PATERNITY => database_models.PATERNITY
  end.

Definition LeaveType_of (x : database_models.LeaveTypeEnum) : schemas.LeaveType :=
  match x with
  | database_models.SICK => schemas.SICK
  | database_models.VACATION => schemas.VACATION
  | database_models.PERSONAL => schemas.PERSONAL
  | database_models.UNPAID => schemas.UNPAID
  | database_models.MATERNITY => schemas.MATERNITY
  | database_models.PATERNITY => schemas.PATERNITY
  end.

Definition LeaveStatus_of (x : database_models.LeaveStatusEnum) : schemas.LeaveStatus :=
  match x with
  | database_models.PENDING => schemas.PENDING
  | database_models.APPROVED => schemas.APPROVED
  | database_models.REJECTED => schemas.REJECTED
  | database_models.CANCELLED => schemas.CANCELLED
  end.

Definition LeaveStatusEnum_of (x : schemas.LeaveStatus) : database_models.LeaveStatusEnum :=
  match x with
  | schemas.PENDING => database_models.PENDING
  | schemas.APPROVED => database_models.APPROVED
  | schemas.REJECTED => database_models.REJECTED
  | schemas.CANCELLED => database_models.CANCELLED
  end.

Definition EmployeeStatusEnum_of (x : schemas.EmployeeStatus)
  : database_models.EmployeeStatusEnum :=
  match x with
  | schemas.ACTIVE => database_models.ACTIVE
  | schemas.INACTIVE => database_models.INACTIVE
  | schemas.ON_LEAVE => database_models.ON_LEAVE
  end.

Definition EmployeeStatus_of (x : database_models.EmployeeStatusEnum)
  : schemas.EmployeeStatus :=
  match x with
  | database_models.ACTIVE => schemas.ACTIVE
  | database_models.INACTIVE => schemas.INACTIVE
  | database_models.ON_LEAVE => schemas.ON_LEAVE
  end.

(** ** Exceptions

    The handlers raise [HTTPException(status_code, detail)]; the detail
    messages are kept as a datatype, one constructor per message, with the
    values the message interpolates. The store, the interpreter and the
    response schemas raise the other four. *)

Inductive Detail : Type :=
| LeaveNotFound (leave_id : Z)
    (* "Leave request with ID {leave_id} not found" *)
| EmployeeDoesNotExist (employee_id : Z)
    (* "Employee with ID {employee_id} does not exist" *)
| EndBeforeStart
    (* "End date must be greater than or equal to start date" *)
| LeaveOverlaps (overlapping_id : Z)
    (* "Leave request overlaps with existing leave request (ID: {id})" *)
| CannotUpdate (st : database_models.LeaveStatusEnum)
    (* "Cannot update leave request with status '{st}'. Only pending ..." *)
| CannotDelete (st : database_models.LeaveStatusEnum)
    (* "Cannot delete leave request with status '{st}'. Only pending ..." *)
| CannotApprove (st : database_models.LeaveStatusEnum)
    (* "Cannot approve leave request with status '{st}'. Only pending ..." *)
| ApproverDoesNotExist (approved_by : Z)
    (* "Approver employee with ID {approved_by} does not exist" *)
| DepartmentNotFound (department_id : Z)
    (* "Department with ID {department_id} not found" *)
| DepartmentHasEmployees
    (* "Cannot delete department with active employees. Please ..." *)
| EmployeeNotFound (employee_id : Z)
    (* "Employee with ID {employee_id} not found" *).

Inductive Exception : Type :=
| HTTPException (status_code : Z) (detail : Detail)
| TypeError            (* comparing a date with None *)
| IntegrityError       (* a constraint of the schema refused a statement *)
| InvalidRequestError  (* refresh of a row that is not stored *)
| ValidationError      (* a field of a model breaks a bound of its schema *).

Definition HTTP_400_BAD_REQUEST : Z := 400.
Definition HTTP_404_NOT_FOUND : Z := 404.

(** ** database.py: the store and the session *)

Module database.
Import database_models.

(** The three tables, each a finite map from primary key to row. *)
Record Database : Type := Build_Database {
  departments : gmap Z DepartmentModel.t;
  employees : gmap Z EmployeeModel.t;
  leave_requests : gmap Z LeaveRequestModel.t
}.

(** An assignment to a column of a loaded leave request
    ([setattr(db_leave, key, value)] or [db_leave.key = value]). *)
Inductive Assign : Type :=
| set_leave_type (v : option LeaveTypeEnum)
| set_start_date (v : option date)
| set_end_date (v : option date)
| set_reason (v : option string)
| set_status (v : LeaveStatusEnum)
| set_approved_by (v : option Z).

(** The changes a session has recorded and not yet written. *)
Inductive Stmt : Type :=
| INSERT_leave_request (id : Z) (row : LeaveRequestModel.t) (* db.add(row) *)
| UPDATE_leave_request (id : Z) (a : Assign)           (* attribute set *)
| DELETE_department (id : Z)                           (* db.delete(dept) *)
| DELETE_employee (id : Z)                             (* db.delete(emp) *).

(** A session: the stored tables and the unit of work. The session
    factory is configured with [autoflush=False], so queries read the
    stored tables and recorded changes reach them only on [db_commit]. *)
Record Session : Type := Build_Session {
  store : Database;
  pending : list Stmt
}.

Inductive Result (A : Type) : Type :=
| Return (a : A)
| Raise (e : Exception).
Arguments Return {A} a.
Arguments Raise {A} e.

(** Handlers are computations over a session that return or raise. *)
Definition M (A : Type) : Type := Session → Result A * Session.

Definition ret {A} (a : A) : M A := λ s, (Return a, s).

Definition raise {A} (e : Exception) : M A := λ s, (Raise e, s).

Definition bind {A B} (m : M A) (k : A → M B) : M B :=
  λ s, match m s with
       | (Return a, s') => k a s'
       | (Raise e, s') => (Raise e, s')
       end.

(** A call of a function that does not use the session. *)
Definition call {A} (r : Result A) : M A := λ s, (r, s).

#[global] Instance M_ret : MRet M := @ret.
#[global] Instance M_bind : MBind M := λ A B k m, bind m k.

(** *** Queries *)

(** [db.query(Model).filter(Model.id == id).first()] *)
Definition query_department (id : Z) : M (option DepartmentModel.t) :=
  λ s, (Return (departments (store s) !! id), s).

Definition query_employee (id : Z) : M (option EmployeeModel.t) :=
  λ s, (Return (employees (store s) !! id), s).

Definition query_leave_request (id : Z) : M (option LeaveRequestModel.t) :=
  λ s, (Return (leave_requests (store s) !! id), s).

(** [db.query(LeaveRequestModel).filter(...).first()]: some row that
    satisfies the filter, with its key, if there is one. *)
Definition query_leave_request_first
    (p : LeaveRequestModel.t → bool) : M (option (Z * LeaveRequestModel.t)) :=
  λ s, (Return (List.find (λ kv, p kv.2)
                          (map_to_list (leave_requests (store s)))), s).

(** [db.query(func.count(EmployeeModel.id)).filter(...).scalar()] *)
Definition count_employees (p : EmployeeModel.t → bool) : M Z :=
  λ s, (Return (Z.of_nat (length (List.filter (λ kv : Z * EmployeeModel.t, p kv.2)
                                    (map_to_list (employees (store s)))))), s).

(** *** Recording changes *)

Definition record (st : Stmt) : M unit :=
  λ s, (Return tt, {| store := store s; pending := pending s ++ [st] |}).

(** [db.add(row)]. The column [id] is a serial primary key: the row that
    the handler builds has no key, and the INSERT statement takes the next
    value of the sequence of the table. That value, [nextval], is a fact
    about the store that the tables do not determine (a row inserted with
    its key given, as the seed script does, leaves the sequence where it
    was), so it is given together with the row. *)
Definition db_add (nextval : Z) (row : LeaveRequestModel.t) : M unit :=
  record (INSERT_leave_request nextval row).

Definition setattr (id : Z) (a : Assign) : M unit :=
  record (UPDATE_leave_request id a).

Definition db_delete_department (id : Z) : M unit := record (DELETE_department id).

Definition db_delete_employee (id : Z) : M unit := record (DELETE_employee id).

(** *** Writing changes: the constraints of the schema *)

Definition exists_row {A} (table : gmap Z A) (id : Z) : bool :=
  bool_decide (is_Some (table !! id)).

(** A nullable foreign key holds NULL or the key of a stored row. *)
Definition fk_ok {A} (table : gmap Z A) (ref : option Z) : bool :=
  match ref with
  | None => true
  | Some id => exists_row table id
  end.

(** No row of [table] satisfies [p]. *)
Definition no_row {A} (table : gmap Z A) (p : A → bool) : bool :=
  forallb (λ kv, negb (p kv.2)) (map_to_list table).

(** The row after one column assignment, or [None] when the assignment
    puts NULL into a column declared [nullable=False] or a key of no
    employee into [approved_by]. *)
Definition assign (db : Database) (a : Assign) (row : LeaveRequestModel.t)
  : option LeaveRequestModel.t :=
  let 'LeaveRequestModel.Build e t sd ed r st ab ca := row in
  match a with
  | set_leave_type None | set_start_date None
  | set_end_date None | set_reason None => None
  | set_leave_type (Some v) => Some (LeaveRequestModel.Build e v sd ed r st ab ca)
  | set_start_date (Some v) => Some (LeaveRequestModel.Build e t v ed r st ab ca)
  | set_end_date (Some v) => Some (LeaveRequestModel.Build e t sd v r st ab ca)
  | set_reason (Some v) => Some (LeaveRequestModel.Build e t sd ed v st ab ca)
  | set_status v => Some (LeaveRequestModel.Build e t sd ed r v ab ca)
  | set_approved_by v =>
      if fk_ok (employees db) v
      then Some (LeaveRequestModel.Build e t sd ed r st v ca)
      else None
  end.

Definition references_employee (id : Z) (row : LeaveRequestModel.t) : bool :=
  (LeaveRequestModel.employee_id row =? id)
  || bool_decide (LeaveRequestModel.approved_by row = Some id).

Definition managed_by (id : Z) (row : DepartmentModel.t) : bool :=
  bool_decide (DepartmentModel.manager_id row = Some id).

Definition member_of (id : Z) (row : EmployeeModel.t) : bool :=
  EmployeeModel.department_id row =? id.

(** One statement against the tables: the new tables and the generated
    key, or [None] when a constraint of the schema refuses the statement.
    The constraints are those that [database_models.py] declares:
    [primary_key=True] on the column [id] of every table, so that a row is
    not inserted under a key that some row of the table has;
    [nullable=False] on every column of [leave_requests] but [approved_by];
    [ForeignKey("employees.id")] on [departments.manager_id],
    [leave_requests.employee_id] and [leave_requests.approved_by];
    [ForeignKey("departments.id")] on [employees.department_id]. No foreign
    key has an ON DELETE action and no relationship has a delete cascade,
    so a row that is still referred to cannot be deleted. *)
Definition exec (st : Stmt) (db : Database) : option (Database * list Z) :=
  match st with
  | INSERT_leave_request id row =>
      if negb (exists_row (leave_requests db) id)
         && exists_row (employees db) (LeaveRequestModel.employee_id row)
         && fk_ok (employees db) (LeaveRequestModel.approved_by row)
      then Some ({| departments := departments db;
                    employees := employees db;
                    leave_requests := <[id := row]> (leave_requests db) |}, [id])
      else None
  | UPDATE_leave_request id a =>
      match leave_requests db !! id with
      | None => Some (db, [])
      | Some row =>
          match assign db a row with
          | None => None
          | Some row' =>
              Some ({| departments := departments db;
                       employees := employees db;
                       leave_requests := <[id := row']> (leave_requests db) |}, [])
          end
      end
  | DELETE_department id =>
      if no_row (employees db) (member_of id)
      then Some ({| departments := delete id (departments db);
                    employees := employees db;
                    leave_requests := leave_requests db |}, [])
      else None
  | DELETE_employee id =>
      if no_row (departments db) (managed_by id)
         && no_row (leave_requests db) (references_employee id)
      then Some ({| departments := departments db;
                    employees := delete id (employees db);
                    leave_requests := leave_requests db |}, [])
      else None
  end.

(** The recorded statements in order, inside one transaction. *)
Fixpoint flush (sts : list Stmt) (db : Database) : option (Database * list Z) :=
  match sts with
  | [] => Some (db, [])
  | st :: rest =>
      match exec st db with
      | None => None
      | Some (db', keys) =>
          match flush rest db' with
          | None => None
          | Some (db'', keys') => Some (db'', keys ++ keys')
          end
      end
  end.

(** [db.commit()]: all recorded changes are written, or none is and
    [IntegrityError] is raised. Returns the generated primary keys. *)
Definition db_commit : M (list Z) :=
  λ s, match flush (pending s) (store s) with
       | Some (db', keys) => (Return keys, {| store := db'; pending := [] |})
       | None => (Raise IntegrityError, {| store := store s; pending := [] |})
       end.

(** [db.refresh(db_leave)]: the stored row is read again. *)
Definition db_refresh (id : Z) : M LeaveRequestModel.t :=
  λ s, match leave_requests (store s) !! id with
       | Some row => (Return row, s)
       | None => (Raise InvalidRequestError, s)
       end.

(** [get_db]: a request runs its handler in a fresh session, which is
    closed afterwards; changes that were recorded and not committed are
    dropped. The result is the handler's outcome and the stored tables
    after the request. *)
Definition request {A} (handler : M A) (db : Database) : Result A * Database :=
  let (r, s) := handler {| store := db; pending := [] |} in (r, store s).

(** *** Queries that return lists *)

(** [query.offset(skip).limit(limit)]. The handlers declare [skip] with
    [ge=0] and [limit] with [ge=1, le=1000]; both are natural numbers
    here. *)
Definition offset_limit {A} (skip limit : nat) (rows : list A) : list A :=
  take limit (drop skip rows).

(** [db.query(Model).filter(...).all()]: the rows that satisfy the filter,
    with their keys. *)
Definition query_leave_requests_all (p : LeaveRequestModel.t → bool)
  : M (list (Z * LeaveRequestModel.t)) :=
  λ s, (Return (List.filter (λ kv, p kv.2) (map_to_list (leave_requests (store s)))), s).

Definition query_employees_all (p : EmployeeModel.t → bool)
  : M (list (Z * EmployeeModel.t)) :=
  λ s, (Return (List.filter (λ kv, p kv.2) (map_to_list (employees (store s)))), s).

(** [db.query(Model).filter(...).offset(skip).limit(limit).all()] *)
Definition query_leave_requests_page (p : LeaveRequestModel.t → bool)
    (skip limit : nat) : M (list (Z * LeaveRequestModel.t)) :=
  λ s, (Return (offset_limit skip limit
                  (List.filter (λ kv, p kv.2) (map_to_list (leave_requests (store s))))), s).



End database.

(** ** routers/leaves.py *)

Module leaves.
Import database_models database.

(** Convert database model to schema. *)
Definition db_leave_to_schema (id : Z) (db_leave : LeaveRequestModel.t)
  : schemas.LeaveRequest.t :=
  {| schemas.LeaveRequest.id := id;
     schemas.LeaveRequest.employee_id := LeaveRequestModel.employee_id db_leave;
     schemas.LeaveRequest.leave_type := LeaveType_of (LeaveRequestModel.leave_type db_leave);
     schemas.LeaveRequest.start_date := LeaveRequestModel.start_date db_leave;
     schemas.LeaveRequest.end_date := LeaveRequestModel.end_date db_leave;
     schemas.LeaveRequest.reason := LeaveRequestModel.reason db_leave;
     schemas.LeaveRequest.status := LeaveStatus_of (LeaveRequestModel.status db_leave);
     schemas.LeaveRequest.approved_by := LeaveRequestModel.approved_by db_leave;
     schemas.LeaveRequest.created_at := LeaveRequestModel.created_at db_leave |}.

(** [status.in_([PENDING, APPROVED])] *)
Definition status_in_pending_approved (st : LeaveStatusEnum) : bool :=
  LeaveStatusEnum_eqb st PENDING || LeaveStatusEnum_eqb st APPROVED.

(** The filter of the overlap query of [create_leave_request]: same
    employee, status pending or approved, and not (the stored range ends
    before the new one starts or starts after the new one ends). *)
Definition overlapping_filter (leave_request : schemas.LeaveRequestCreate.t)
    (row : LeaveRequestModel.t) : bool :=
  (LeaveRequestModel.employee_id row =? schemas.LeaveRequestCreate.employee_id leave_request)
  && status_in_pending_approved (LeaveRequestModel.status row)
  && negb (date_ltb (LeaveRequestModel.end_date row)
                    (schemas.LeaveRequestCreate.start_date leave_request)
           || date_gtb (LeaveRequestModel.start_date row)
                       (schemas.LeaveRequestCreate.end_date leave_request)).

(** [today] is the value of [date.today()] when the request is served,
    [nextval] the value that the sequence of [leave_requests.id] gives to
    the INSERT statement of the request. *)
Definition create_leave_request (today : date) (nextval : Z)
    (leave_request : schemas.LeaveRequestCreate.t) : M schemas.LeaveRequest.t :=
  (* Validate employee exists *)
  employee ← query_employee (schemas.LeaveRequestCreate.employee_id leave_request);
  match employee with
  | None =>
      raise (HTTPException HTTP_400_BAD_REQUEST
               (EmployeeDoesNotExist (schemas.LeaveRequestCreate.employee_id leave_request)))
  | Some _ =>
      (* Validate dates *)
      if date_ltb (schemas.LeaveRequestCreate.end_date leave_request)
                  (schemas.LeaveRequestCreate.start_date leave_request)
      then raise (HTTPException HTTP_400_BAD_REQUEST EndBeforeStart)
      else
        (* Check for overlapping leave requests *)
        overlapping ← query_leave_request_first (overlapping_filter leave_request);
        match overlapping with
        | Some (overlapping_id, _) =>
            raise (HTTPException HTTP_400_BAD_REQUEST (LeaveOverlaps overlapping_id))
        | None =>
            (* Create new leave request *)
            let db_leave :=
              {| LeaveRequestModel.employee_id :=
                   schemas.LeaveRequestCreate.employee_id leave_request;
                 LeaveRequestModel.leave_type :=
                   LeaveTypeEnum_of (schemas.LeaveRequestCreate.leave_type leave_request);
                 LeaveRequestModel.start_date :=
                   schemas.LeaveRequestCreate.start_date leave_request;
                 LeaveRequestModel.end_date :=
                   schemas.LeaveRequestCreate.end_date leave_request;
                 LeaveRequestModel.reason :=
                   schemas.LeaveRequestCreate.reason leave_request;
                 LeaveRequestModel.status := PENDING;
                 LeaveRequestModel.approved_by := None;
                 LeaveRequestModel.created_at := today |} in
            db_add nextval db_leave;;
            keys ← db_commit;
            match keys with
            | [] => raise InvalidRequestError
            | id :: _ =>
                row ← db_refresh id;
                mret (db_leave_to_schema id row)
            end
        end
  end.

(** [update_data.get(key, default)]: the value set in the body (which may
    be [None]), the default when the key is absent. *)
Definition get {A} (f : schemas.field A) (default : A) : option A :=
  match f with
  | schemas.Unset => Some default
  | schemas.SetTo v => v
  end.

(** [a < b] on two values that may be [None]: comparing with [None] raises
    [TypeError]. *)
Definition lt_dates (a b : option date) : M bool :=
  match a, b with
  | Some a, Some b => mret (date_ltb a b)
  | _, _ => raise TypeError
  end.

(** The assignments of the loop over [update_data.items()], in the order of
    the fields of [LeaveRequestUpdate]; a [leave_type] that is present and
    not [None] has been converted to the table enumeration. *)
Definition items (leave_update : schemas.LeaveRequestUpdate.t) : list Assign :=
  match schemas.LeaveRequestUpdate.leave_type leave_update with
  | schemas.Unset => []
  | schemas.SetTo v => [set_leave_type (LeaveTypeEnum_of <$> v)]
  end
  ++ match schemas.LeaveRequestUpdate.start_date leave_update with
     | schemas.Unset => []
     | schemas.SetTo v => [set_start_date v]
     end
  ++ match schemas.LeaveRequestUpdate.end_date leave_update with
     | schemas.Unset => []
     | schemas.SetTo v => [set_end_date v]
     end
  ++ match schemas.LeaveRequestUpdate.reason leave_update with
     | schemas.Unset => []
     | schemas.SetTo v => [set_reason v]
     end.

Fixpoint setattrs (id : Z) (l : list Assign) : M unit :=
  match l with
  | [] => mret tt
  | a :: l' => setattr id a;; setattrs id l'
  end.

Definition update_leave_request (leave_id : Z)
    (leave_update : schemas.LeaveRequestUpdate.t) : M schemas.LeaveRequest.t :=
  db_leave ← query_leave_request leave_id;
  match db_leave with
  | None => raise (HTTPException HTTP_404_NOT_FOUND (LeaveNotFound leave_id))
  | Some db_leave =>
      (* Only allow updates to pending requests *)
      if negb (LeaveStatusEnum_eqb (LeaveRequestModel.status db_leave) PENDING)
      then raise (HTTPException HTTP_400_BAD_REQUEST
                    (CannotUpdate (LeaveRequestModel.status db_leave)))
      else
        (* Validate dates if being updated *)
        let start_date := get (schemas.LeaveRequestUpdate.start_date leave_update)
                              (LeaveRequestModel.start_date db_leave) in
        let end_date := get (schemas.LeaveRequestUpdate.end_date leave_update)
                            (LeaveRequestModel.end_date db_leave) in
        before ← lt_dates end_date start_date;
        if (before : bool)
        then raise (HTTPException HTTP_400_BAD_REQUEST EndBeforeStart)
        else
          (* Update leave request *)
          setattrs leave_id (items leave_update);;
          db_commit;;
          row ← db_refresh leave_id;
          mret (db_leave_to_schema leave_id row)
  end.

(** Cancel a leave request: it is marked cancelled, not removed. *)
Definition delete_leave_request (leave_id : Z) : M unit :=
  db_leave ← query_leave_request leave_id;
  match db_leave with
  | None => raise (HTTPException HTTP_404_NOT_FOUND (LeaveNotFound leave_id))
  | Some db_leave =>
      (* Only allow deletion of pending requests *)
      if negb (LeaveStatusEnum_eqb (LeaveRequestModel.status db_leave) PENDING)
      then raise (HTTPException HTTP_400_BAD_REQUEST
                    (CannotDelete (LeaveRequestModel.status db_leave)))
      else
        setattr leave_id (set_status CANCELLED);;
        db_commit;;
        mret tt
  end.

Definition approve_leave_request (leave_id : Z)
    (approval : schemas.LeaveApproval.t) : M schemas.LeaveRequest.t :=
  db_leave ← query_leave_request leave_id;
  match db_leave with
  | None => raise (HTTPException HTTP_404_NOT_FOUND (LeaveNotFound leave_id))
  | Some db_leave =>
      (* Only allow approval of pending requests *)
      if negb (LeaveStatusEnum_eqb (LeaveRequestModel.status db_leave) PENDING)
      then raise (HTTPException HTTP_400_BAD_REQUEST
                    (CannotApprove (LeaveRequestModel.status db_leave)))
      else
        (* Validate approver exists *)
        approver ← query_employee (schemas.LeaveApproval.approved_by approval);
        match approver with
        | None =>
            raise (HTTPException HTTP_400_BAD_REQUEST
                     (ApproverDoesNotExist (schemas.LeaveApproval.approved_by approval)))
        | Some _ =>
            (* Update leave request status *)
            setattr leave_id
              (set_status (if schemas.LeaveApproval.approved approval
                           then APPROVED else REJECTED));;
            setattr leave_id
              (set_approved_by (Some (schemas.LeaveApproval.approved_by approval)));;
            db_commit;;
            row ← db_refresh leave_id;
            mret (db_leave_to_schema leave_id row)
        end
  end.

(** The filters of [get_leave_requests]: each one applies when its
    parameter is given. *)
Definition list_filter (employee_id : option Z)
    (status_filter : option schemas.LeaveStatus)
    (leave_type : option schemas.LeaveType) (row : LeaveRequestModel.t) : bool :=
  match employee_id with
  | None => true
  | Some e => LeaveRequestModel.employee_id row =? e
  end
  && match status_filter with
     | None => true
     | Some st => LeaveStatusEnum_eqb (LeaveRequestModel.status row) (LeaveStatusEnum_of st)
     end
  && match leave_type with
     | None => true
     | Some t => LeaveTypeEnum_eqb (LeaveRequestModel.leave_type row) (LeaveTypeEnum_of t)
     end.

Definition get_leave_requests (employee_id : option Z)
    (status_filter : option schemas.LeaveStatus)
    (leave_type : option schemas.LeaveType) (skip limit : nat)
  : M (list schemas.LeaveRequest.t) :=
  leave_requests ←
    query_leave_requests_page (list_filter employee_id status_filter leave_type)
      skip limit;
  mret (map (λ lr, db_leave_to_schema lr.1 lr.2) leave_requests).

Definition get_leave_request (leave_id : Z) : M schemas.LeaveRequest.t :=
  leave_request ← query_leave_request leave_id;
  match leave_request with
  | None => raise (HTTPException HTTP_404_NOT_FOUND (LeaveNotFound leave_id))
  | Some leave_request => mret (db_leave_to_schema leave_id leave_request)
  end.

(** The dictionary that [get_employee_leave_summary] returns. *)
Module by_type.
Record t : Type := Build {
  sick : Z;
  vacation : Z;
  personal : Z;
  unpaid : Z;
  maternity : Z;
  paternity : Z
}.
End by_type.

Module summary.
Record t : Type := Build {
  employee_id : Z;
  total_requests : Z;
  pending : Z;
  approved : Z;
  rejected : Z;
  cancelled : Z;
  by_type : by_type.t
}.
End summary.

(** [sum(1 for lr in rows if p(lr))] *)
Definition sum (l : list Z) : Z := foldl Z.add 0 l.

Definition sum_1_if {A} (p : A → bool) (rows : list A) : Z :=
  sum (map (λ _, 1) (List.filter p rows)).

Definition get_employee_leave_summary (employee_id : Z) : M summary.t :=
  employee ← query_employee employee_id;
  match employee with
  | None => raise (HTTPException HTTP_404_NOT_FOUND (EmployeeNotFound employee_id))
  | Some _ =>
      employee_leaves ←
        query_leave_requests_all (λ lr, LeaveRequestModel.employee_id lr =? employee_id);
      let status_is st (lr : Z * LeaveRequestModel.t) :=
        LeaveStatusEnum_eqb (LeaveRequestModel.status lr.2) st in
      let type_is t (lr : Z * LeaveRequestModel.t) :=
        LeaveTypeEnum_eqb (LeaveRequestModel.leave_type lr.2) t in
      mret {| summary.employee_id := employee_id;
              summary.total_requests := Z.of_nat (length employee_leaves);
              summary.pending := sum_1_if (status_is PENDING) employee_leaves;
              summary.approved := sum_1_if (status_is APPROVED) employee_leaves;
              summary.rejected := sum_1_if (status_is REJECTED) employee_leaves;
              summary.cancelled := sum_1_if (status_is CANCELLED) employee_leaves;
              summary.by_type :=
                {| by_type.sick := sum_1_if (type_is SICK) employee_leaves;
                   by_type.vacation := sum_1_if (type_is VACATION) employee_leaves;
                   by_type.personal := sum_1_if (type_is PERSONAL) employee_leaves;
                   by_type.unpaid := sum_1_if (type_is UNPAID) employee_leaves;
                   by_type.maternity := sum_1_if (type_is MATERNITY) employee_leaves;
                   by_type.paternity := sum_1_if (type_is PATERNITY) employee_leaves |} |}
  end.

End leaves.

(** ** routers/departments.py *)

Module departments.
Import database_models database.

Definition delete_department (department_id : Z) : M unit :=
  db_department ← query_department department_id;
  match db_department with
  | None => raise (HTTPException HTTP_404_NOT_FOUND (DepartmentNotFound department_id))
  | Some _ =>
      (* Check if department has employees *)
      employee_count ←
        count_employees (λ e, EmployeeModel.department_id e =? department_id);
      if employee_count >? 0
      then raise (HTTPException HTTP_400_BAD_REQUEST DepartmentHasEmployees)
      else
        db_delete_department department_id;;
        db_commit;;
        mret tt
  end.

(** Convert database model to schema. When no count is passed, the count
    is the length of the relationship [db_dept.employees], the employees
    whose [department_id] is the key of the department. *)
Definition db_department_to_schema (id : Z) (db_dept : DepartmentModel.t)
    (employee_count : option Z) : M schemas.Department.t :=
  employee_count ←
    match employee_count with
    | Some n => mret n
    | None =>
        related ← query_employees_all (λ e, EmployeeModel.department_id e =? id);
        mret (Z.of_nat (length related))
    end;
  mret {| schemas.Department.id := id;
          schemas.Department.name := DepartmentModel.name db_dept;
          schemas.Department.description := DepartmentModel.description db_dept;
          schemas.Department.manager_id := DepartmentModel.manager_id db_dept;
          schemas.Department.employee_count := employee_count |}.



Definition get_department (department_id : Z) : M schemas.Department.t :=
  department ← query_department department_id;
  match department with
  | None => raise (HTTPException HTTP_404_NOT_FOUND (DepartmentNotFound department_id))
  | Some department =>
      emp_count ←
        count_employees (λ e, EmployeeModel.department_id e =? department_id);
      db_department_to_schema department_id department (Some emp_count)
  end.

End departments.

(** ** routers/employees.py *)

Module employees.
Import database_models database.

Definition delete_employee (employee_id : Z) : M unit :=
  db_employee ← query_employee employee_id;
  match db_employee with
  | None => raise (HTTPException HTTP_404_NOT_FOUND (EmployeeNotFound employee_id))
  | Some _ =>
      db_delete_employee employee_id;;
      db_commit;;
      mret tt
  end.

(** Convert database model to schema: the function builds an [Employee]
    from the columns of the row, which validates them; it returns the
    model or raises [ValidationError]. *)
Definition db_employee_to_schema (v : pydantic.validators)
    (id : Z) (db_employee : EmployeeModel.t) : Result schemas.Employee.t :=
  match schemas.Employee.init v
          id
          (EmployeeModel.first_name db_employee)
          (EmployeeModel.last_name db_employee)
          (EmployeeModel.email db_employee)
          (EmployeeModel.phone db_employee)
          (EmployeeModel.department_id db_employee)
          (EmployeeModel.position db_employee)
          (EmployeeModel.hire_date db_employee)
          (EmployeeModel.salary db_employee)
          (EmployeeStatus_of (EmployeeModel.status db_employee)) with
  | Some employee => Return employee
  | None => Raise ValidationError
  end.

(** [[db_employee_to_schema(emp) for emp in employees]]: the responses in
    the order of the rows; the first row that is refused ends the loop. *)
Fixpoint to_schemas (v : pydantic.validators)
    (employees : list (Z * EmployeeModel.t)) : M (list schemas.Employee.t) :=
  match employees with
  | [] => mret []
  | emp :: rest =>
      item ← call (db_employee_to_schema v emp.1 emp.2);
      items ← to_schemas v rest;
      mret (item :: items)
  end.

(** The filters of [get_employees]: each one applies when its parameter is
    given. *)
Definition list_filter (department_id : option Z)
    (status_filter : option schemas.EmployeeStatus) (row : EmployeeModel.t) : bool :=
  match department_id with
  | None => true
  | Some d => EmployeeModel.department_id row =? d
  end
  && match status_filter with
     | None => true
     | Some st =>
         EmployeeStatusEnum_eqb (EmployeeModel.status row) (EmployeeStatusEnum_of st)
     end.


Definition get_employee (v : pydantic.validators) (employee_id : Z)
  : M schemas.Employee.t :=
  employee ← query_employee employee_id;
  match employee with
  | None => raise (HTTPException HTTP_404_NOT_FOUND (EmployeeNotFound employee_id))
  | Some employee => call (db_employee_to_schema v employee_id employee)
  end.

Definition get_employees_by_department (v : pydantic.validators) (department_id : Z)
  : M (list schemas.Employee.t) :=
  department ← query_department department_id;
  match department with
  | None => raise (HTTPException HTTP_404_NOT_FOUND (DepartmentNotFound department_id))
  | Some _ =>
      employees ←
        query_employees_all (λ e, EmployeeModel.department_id e =? department_id);
      to_schemas v employees
  end.

End employees.

(** ** Failure kinds

    The kind of failure that each raise site stands for in the
    description of the operations: an identifier that does not resolve
    ([NotFound]), an end date before the start date ([InvalidRange]), an
    overlap ([Conflict]), an operation that the lifecycle state does not
    permit ([InvalidState]). A failure of the store itself is a
    [StorageError]; a [TypeError] and a [ValidationError] have no kind. *)

Inductive ErrorKind : Type :=
  NotFound | InvalidRange | Conflict | InvalidState | StorageError.

Definition kind_of_detail (d : Detail) : ErrorKind :=
  match d with
  | LeaveNotFound _ | EmployeeDoesNotExist _ | ApproverDoesNotExist _
  | DepartmentNotFound _ | EmployeeNotFound _ => NotFound
  | EndBeforeStart => InvalidRange
  | LeaveOverlaps _ => Conflict
  | CannotUpdate _ | CannotDelete _ | CannotApprove _
  | DepartmentHasEmployees => InvalidState
  end.

Definition failure_kind (e : Exception) : option ErrorKind :=
  match e with
  | HTTPException _ d => Some (kind_of_detail d)
  | IntegrityError | InvalidRequestError => Some StorageError
  | TypeError | ValidationError => None
  end.

(** A validation failure: one of the four kinds the handlers detect. *)
Definition validation_failure (e : Exception) : Prop :=
  ∃ code d, e = HTTPException code d.

(** [fails_with r k]: the handler raised, with a failure of kind [k]. *)
Definition fails_with {A} (r : database.Result A) (k : ErrorKind) : Prop :=
  ∃ e, r = database.Raise e ∧ failure_kind e = Some k.

(** ** Vocabulary of the properties *)

Definition date_lt (d1 d2 : date) : Prop := date_ltb d1 d2 = true.

Definition date_le (d1 d2 : date) : Prop := ¬ date_lt d2 d1.

(** Two closed date ranges [[a, b]] and [[c, d]] intersect: they share a
    day. *)
Definition intersects (a b c d : date) : Prop :=
  ∃ x, date_le a x ∧ date_le x b ∧ date_le c x ∧ date_le x d.

(** The overlap test on closed ranges: [[a, b]] and [[c, d]] overlap iff
    not ([b < c] or [a > d]). *)
Definition overlap (a b c d : date) : Prop := ¬ (date_lt b c ∨ date_lt d a).

(** The status of a request that blocks an overlapping create. *)
Definition active (st : database_models.LeaveStatusEnum) : Prop :=
  st = database_models.PENDING ∨ st = database_models.APPROVED.



(** The tables with another [leave_requests] table. *)
Definition with_leave_requests (db : database.Database)
    (t : gmap Z database_models.LeaveRequestModel.t) : database.Database :=
  {| database.departments := database.departments db;
     database.employees := database.employees db;
     database.leave_requests := t |}.

(** A row after a list of column assignments, in order. *)
Fixpoint assigns (db : database.Database) (l : list database.Assign)
    (row : database_models.LeaveRequestModel.t)
  : option database_models.LeaveRequestModel.t :=
  match l with
  | [] => Some row
  | a :: l' =>
      match database.assign db a row with
      | None => None
      | Some row' => assigns db l' row'
      end
  end.

(** The row that [create_leave_request] adds. *)
Definition created_row (today : date) (leave_request : schemas.LeaveRequestCreate.t)
  : database_models.LeaveRequestModel.t :=
  {| database_models.LeaveRequestModel.employee_id :=
       schemas.LeaveRequestCreate.employee_id leave_request;
     database_models.LeaveRequestModel.leave_type :=
       LeaveTypeEnum_of (schemas.LeaveRequestCreate.leave_type leave_request);
     database_models.LeaveRequestModel.start_date :=
       schemas.LeaveRequestCreate.start_date leave_request;
     database_models.LeaveRequestModel.end_date :=
       schemas.LeaveRequestCreate.end_date leave_request;
     database_models.LeaveRequestModel.reason :=
       schemas.LeaveRequestCreate.reason leave_request;
     database_models.LeaveRequestModel.status := database_models.PENDING;
     database_models.LeaveRequestModel.approved_by := None;
     database_models.LeaveRequestModel.created_at := today |}.

(** Some department, or some leave request, refers to employee [id]. *)
Definition referenced (db : database.Database) (id : Z) : Prop :=
  (∃ k d, database.departments db !! k = Some d
          ∧ database_models.DepartmentModel.manager_id d = Some id)
  ∨ (∃ k l, database.leave_requests db !! k = Some l
            ∧ (database_models.LeaveRequestModel.employee_id l = id
               ∨ database_models.LeaveRequestModel.approved_by l = Some id)).

(** ** Vocabulary of the further properties *)

(** A row with another status, and a row with a decision on it. *)
Definition with_status (st : database_models.LeaveStatusEnum)
    (row : database_models.LeaveRequestModel.t) : database_models.LeaveRequestModel.t :=
  {| database_models.LeaveRequestModel.employee_id :=
       database_models.LeaveRequestModel.employee_id row;
     database_models.LeaveRequestModel.leave_type :=
       database_models.LeaveRequestModel.leave_type row;
     database_models.LeaveRequestModel.start_date :=
       database_models.LeaveRequestModel.start_date row;
     database_models.LeaveRequestModel.end_date :=
       database_models.LeaveRequestModel.end_date row;
     database_models.LeaveRequestModel.reason :=
       database_models.LeaveRequestModel.reason row;
     database_models.LeaveRequestModel.status := st;
     database_models.LeaveRequestModel.approved_by :=
       database_models.LeaveRequestModel.approved_by row;
     database_models.LeaveRequestModel.created_at :=
       database_models.LeaveRequestModel.created_at row |}.

Definition with_decision (approved : bool) (approver : Z)
    (row : database_models.LeaveRequestModel.t) : database_models.LeaveRequestModel.t :=
  {| database_models.LeaveRequestModel.employee_id :=
       database_models.LeaveRequestModel.employee_id row;
     database_models.LeaveRequestModel.leave_type :=
       database_models.LeaveRequestModel.leave_type row;
     database_models.LeaveRequestModel.start_date :=
       database_models.LeaveRequestModel.start_date row;
     database_models.LeaveRequestModel.end_date :=
       database_models.LeaveRequestModel.end_date row;
     database_models.LeaveRequestModel.reason :=
       database_models.LeaveRequestModel.reason row;
     database_models.LeaveRequestModel.status :=
       if approved then database_models.APPROVED else database_models.REJECTED;
     database_models.LeaveRequestModel.approved_by := Some approver;
     database_models.LeaveRequestModel.created_at :=
       database_models.LeaveRequestModel.created_at row |}.

(** Two stored requests of one employee that are both pending or approved
    and whose ranges pass the overlap test. *)
Definition double_booked (r1 r2 : database_models.LeaveRequestModel.t) : Prop :=
  database_models.LeaveRequestModel.employee_id r1
  = database_models.LeaveRequestModel.employee_id r2
  ∧ active (database_models.LeaveRequestModel.status r1)
  ∧ active (database_models.LeaveRequestModel.status r2)
  ∧ overlap (database_models.LeaveRequestModel.start_date r1)
            (database_models.LeaveRequestModel.end_date r1)
            (database_models.LeaveRequestModel.start_date r2)
            (database_models.LeaveRequestModel.end_date r2).

(** The change that a leave handler writes: the key and the new row.
    [leave_change db k row'] reads: on the tables [db], some call of
    create, update, cancel or approve stores [row'] under [k]. *)
Inductive leave_change (db : database.Database)
  : Z → database_models.LeaveRequestModel.t → Prop :=
| change_create today nextval leave_request :
    database.leave_requests db !! nextval = None →
    is_Some (database.employees db
               !! schemas.LeaveRequestCreate.employee_id leave_request) →
    date_le (schemas.LeaveRequestCreate.start_date leave_request)
            (schemas.LeaveRequestCreate.end_date leave_request) →
    (∀ k row, database.leave_requests db !! k = Some row →
              ¬ double_booked row (created_row today leave_request)) →
    leave_change db nextval (created_row today leave_request)
| change_update leave_id leave_update row row' :
    database.leave_requests db !! leave_id = Some row →
    database_models.LeaveRequestModel.status row = database_models.PENDING →
    assigns db (leaves.items leave_update) row = Some row' →
    date_le (database_models.LeaveRequestModel.start_date row')
            (database_models.LeaveRequestModel.end_date row') →
    leave_change db leave_id row'
| change_cancel leave_id row :
    database.leave_requests db !! leave_id = Some row →
    database_models.LeaveRequestModel.status row = database_models.PENDING →
    leave_change db leave_id (with_status database_models.CANCELLED row)
| change_approve leave_id row approved approver :
    database.leave_requests db !! leave_id = Some row →
    database_models.LeaveRequestModel.status row = database_models.PENDING →
    is_Some (database.employees db !! approver) →
    leave_change db leave_id (with_decision approved approver row).

(** Every stored range is a range: the end date is not before the start
    date. *)
Definition proper_ranges (db : database.Database) : Prop :=
  ∀ k row, database.leave_requests db !! k = Some row →
           date_le (database_models.LeaveRequestModel.start_date row)
                   (database_models.LeaveRequestModel.end_date row).

(** No employee has two pending or approved requests that overlap. *)
Definition no_double_booking (db : database.Database) : Prop :=
  ∀ k1 k2 r1 r2,
    k1 ≠ k2 →
    database.leave_requests db !! k1 = Some r1 →
    database.leave_requests db !! k2 = Some r2 →
    ¬ double_booked r1 r2.

(** A request has an approver exactly when it is approved or rejected. *)
Definition decided_by_approver (db : database.Database) : Prop :=
  ∀ k row, database.leave_requests db !! k = Some row →
    (is_Some (database_models.LeaveRequestModel.approved_by row)
     ↔ database_models.LeaveRequestModel.status row = database_models.APPROVED
       ∨ database_models.LeaveRequestModel.status row = database_models.REJECTED).

(** Every reference between the tables resolves. *)
Definition references_resolve (db : database.Database) : Prop :=
  (∀ k e, database.employees db !! k = Some e →
          is_Some (database.departments db
                     !! database_models.EmployeeModel.department_id e))
  ∧ (∀ k d m, database.departments db !! k = Some d →
              database_models.DepartmentModel.manager_id d = Some m →
              is_Some (database.employees db !! m))
  ∧ (∀ k l, database.leave_requests db !! k = Some l →
            is_Some (database.employees db
                       !! database_models.LeaveRequestModel.employee_id l))
  ∧ (∀ k l a, database.leave_requests db !! k = Some l →
              database_models.LeaveRequestModel.approved_by l = Some a →
              is_Some (database.employees db !! a)).

(** The number of rows of a table that satisfy [p]. *)
Definition count_rows {A} (p : A → bool) (table : gmap Z A) : Z :=
  Z.of_nat (length (List.filter (λ kv : Z * A, p kv.2) (map_to_list table))).

(** The requests of an employee with a given status. *)
Definition has_status (employee_id : Z) (st : database_models.LeaveStatusEnum)
    (row : database_models.LeaveRequestModel.t) : bool :=
  (database_models.LeaveRequestModel.employee_id row =? employee_id)
  && database_models.LeaveStatusEnum_eqb (database_models.LeaveRequestModel.status row) st.

(** The requests of an employee, and those with a given leave type. *)
Definition of_employee (employee_id : Z)
    (row : database_models.LeaveRequestModel.t) : bool :=
  database_models.LeaveRequestModel.employee_id row =? employee_id.

Definition has_type (employee_id : Z) (t : database_models.LeaveTypeEnum)
    (row : database_models.LeaveRequestModel.t) : bool :=
  (database_models.LeaveRequestModel.employee_id row =? employee_id)
  && database_models.LeaveTypeEnum_eqb (database_models.LeaveRequestModel.leave_type row) t.

(** What no leave handler does to the tables [db] on the way to [db']:
    touch a department or an employee, remove a request, or change the
    requester or the creation date of a request. *)
Definition ledger_extends (db db' : database.Database) : Prop :=
  database.departments db' = database.departments db
  ∧ database.employees db' = database.employees db
  ∧ ∀ k row,
      database.leave_requests db !! k = Some row →
      ∃ row',
        database.leave_requests db' !! k = Some row'
        ∧ database_models.LeaveRequestModel.employee_id row'
          = database_models.LeaveRequestModel.employee_id row
        ∧ database_models.LeaveRequestModel.created_at row'
          = database_models.LeaveRequestModel.created_at row.

(** The outcome of converting a list of employee rows in order: the
    responses, or the failure of the first row that is refused. *)
Fixpoint responses (v : pydantic.validators)
    (rows : list (Z * database_models.EmployeeModel.t))
  : database.Result (list schemas.Employee.t) :=
  match rows with
  | [] => database.Return []
  | emp :: rest =>
      match employees.db_employee_to_schema v emp.1 emp.2 with
      | database.Raise e => database.Raise e
      | database.Return item =>
          match responses v rest with
          | database.Raise e => database.Raise e
          | database.Return items => database.Return (item :: items)
          end
      end
  end.

(** The row passes the response schema. *)
Definition presentable (v : pydantic.validators) (k : Z)
    (row : database_models.EmployeeModel.t) : Prop :=
  ∃ x, employees.db_employee_to_schema v k row = database.Return x.

(** ** Sample data

    Two departments, three employees (the first manages Engineering) and
    the leave requests of employee 3. *)

Definition jan (d : Z) : date := Date 2024 1 d.

(** Validators for the sample data: an address is accepted as it is when
    it has an at sign, and the pattern of the phone field is decided on
    ASCII digits (an optional plus sign, then 9 to 15 digits, or the digit
    1 and 9 to 15 digits). *)
Definition is_digit (c : Ascii.ascii) : bool :=
  (48 <=? Ascii.nat_of_ascii c)%nat && (Ascii.nat_of_ascii c <=? 57)%nat.

Fixpoint all_digits (s : string) : bool :=
  match s with
  | EmptyString => true
  | String c s' => is_digit c && all_digits s'
  end.

Definition digits_9_15 (s : string) : bool :=
  all_digits s && (9 <=? String.length s)%nat && (String.length s <=? 15)%nat.

Definition tail (s : string) : string :=
  String.substring 1 (String.length s - 1) s.

Definition phone_number (s : string) : bool :=
  let s := if String.prefix "+" s then tail s else s in
  digits_9_15 s || (String.prefix "1" s && digits_9_15 (tail s)).

Definition sample_validators : pydantic.validators :=
  {| pydantic.EmailStr s :=
       match String.index 0 "@" s with Some _ => Some s | None => None end;
     pydantic.pattern regex s :=
       if String.eqb regex "^\+?1?\d{9,15}$" then phone_number s else false |}.

Definition employee (first last mail : string) (dept : Z)
  : database_models.EmployeeModel.t :=
  database_models.EmployeeModel.Build first last mail "+12345678901" dept
    "Engineer" (Date 2020 1 15) 85000%float database_models.ACTIVE.

Definition leave (emp : Z) (a b : date) (st : database_models.LeaveStatusEnum)
    (by_ : option Z) : database_models.LeaveRequestModel.t :=
  database_models.LeaveRequestModel.Build emp database_models.VACATION a b
    "Family trip" st by_ (Date 2023 12 1).

Definition sample_departments : gmap Z database_models.DepartmentModel.t :=
  {[ 1 := database_models.DepartmentModel.Build "Engineering" "Software" (Some 1);
     2 := database_models.DepartmentModel.Build "Archive" "Records" None ]}.

Definition sample_employees : gmap Z database_models.EmployeeModel.t :=
  {[ 1 := employee "John" "Doe" "john@example.com" 1;
     2 := employee "Jane" "Roe" "jane@example.com" 1;
     3 := employee "Ravi" "Rao" "ravi@example.com" 1 ]}.

(** Employee 3 has a pending request for January 1 to 5, an approved one
    for January 20 to 25 and a rejected one for January 6 to 8. *)
Definition sample_db : database.Database :=
  {| database.departments := sample_departments;
     database.employees := sample_employees;
     database.leave_requests :=
       {[ 1 := leave 3 (jan 1) (jan 5) database_models.PENDING None;
          2 := leave 3 (jan 20) (jan 25) database_models.APPROVED (Some 1);
          3 := leave 3 (jan 6) (jan 8) database_models.REJECTED (Some 1) ]} |}.

(** ** Proofs *)

Import database_models database.

(** Unfolds the session monad in the goal. *)
Ltac run :=
  unfold request, mbind, M_bind, bind, mret, M_ret, ret, raise,
    query_leave_request, query_employee, query_department,
    query_leave_request_first, count_employees, setattr, db_add,
    db_delete_department, db_delete_employee, record, db_commit, db_refresh;
  cbn [store pending fst snd app].

(** *** Dates *)

Lemma date_ltb_spec d1 d2 :
  date_ltb d1 d2 = true ↔
  year d1 < year d2
  ∨ (year d1 = year d2
     ∧ (month d1 < month d2 ∨ (month d1 = month d2 ∧ day d1 < day d2))).
Proof.
  unfold date_ltb.
  rewrite !orb_true_iff, !andb_true_iff, orb_true_iff, andb_true_iff.
  rewrite !Z.ltb_lt, !Z.eqb_eq. tauto.
Qed.

(** Turns facts about the order of dates into linear arithmetic on their
    components. *)
Ltac date_order :=
  unfold date_le, date_lt, date_gtb, date_leb in *;
  repeat match goal with
         | d : date |- _ => destruct d
         end;
  repeat match goal with
         | H : context [date_ltb _ _ = false] |- _ =>
             rewrite <- not_true_iff_false in H
         | |- context [date_ltb _ _ = false] => rewrite <- not_true_iff_false
         end;
  rewrite ?date_ltb_spec in *; cbn [year month day] in *; try lia.

Lemma date_lt_irrefl d : ¬ date_lt d d.
Proof. date_order. Qed.

Lemma date_lt_trans d1 d2 d3 : date_lt d1 d2 → date_lt d2 d3 → date_lt d1 d3.
Proof. date_order. Qed.

Lemma date_le_refl d : date_le d d.
Proof. date_order. Qed.

Lemma date_le_trans d1 d2 d3 : date_le d1 d2 → date_le d2 d3 → date_le d1 d3.
Proof. date_order. Qed.

Lemma date_le_total d1 d2 : date_le d1 d2 ∨ date_le d2 d1.
Proof. date_order. Qed.

Lemma date_le_antisym d1 d2 : date_le d1 d2 → date_le d2 d1 → d1 = d2.
Proof. date_order. intros. f_equal; lia. Qed.

(** For proper ranges, sharing a day is the test of the overlap query. *)
Lemma intersects_iff a b c d :
  date_le a b → date_le c d →
  intersects a b c d ↔ ¬ (date_lt b c ∨ date_lt d a).
Proof.
  intros Hab Hcd. split.
  - intros (x & H1 & H2 & H3 & H4) [H | H].
    + apply (date_le_trans _ _ _ H3) in H2. by apply H2.
    + apply (date_le_trans _ _ _ H1) in H4. by apply H4.
  - intros H. destruct (date_le_total a c) as [Hac | Hca].
    + exists c. repeat split; try done; [| apply date_le_refl]. intros ?; tauto.
    + exists a. repeat split; try done; [apply date_le_refl |]. intros ?; tauto.
Qed.


(** *** The store *)

Lemma with_leave_requests_id db : with_leave_requests db (leave_requests db) = db.
Proof. by destruct db. Qed.

Lemma exists_row_true {A} (table : gmap Z A) id x :
  table !! id = Some x → exists_row table id = true.
Proof. intros H. apply bool_decide_eq_true_2. by exists x. Qed.

Lemma exists_row_false {A} (table : gmap Z A) id :
  table !! id = None → exists_row table id = false.
Proof.
  intros H. apply bool_decide_eq_false_2. rewrite H. by intros [? ?].
Qed.

(** [no_row] and [find] over the rows of a table. *)
Lemma no_row_true {A} (table : gmap Z A) p :
  no_row table p = true ↔ ∀ k x, table !! k = Some x → p x = false.
Proof.
  unfold no_row. rewrite forallb_forall. split.
  - intros H k x Hk. apply elem_of_map_to_list, list_elem_of_In, H in Hk.
    by apply negb_true_iff in Hk.
  - intros H [k x] Hin. apply negb_true_iff, (H k).
    by apply elem_of_map_to_list, list_elem_of_In.
Qed.

Lemma no_row_false {A} (table : gmap Z A) p k x :
  table !! k = Some x → p x = true → no_row table p = false.
Proof.
  intros Hk Hp. apply not_true_iff_false. rewrite no_row_true.
  intros H. specialize (H k x Hk). congruence.
Qed.

Lemma find_row_Some {A} (table : gmap Z A) p k x :
  List.find (λ kv : Z * A, p kv.2) (map_to_list table) = Some (k, x) →
  table !! k = Some x ∧ p x = true.
Proof.
  intros [Hin Hp]%find_some. split; [| done].
  by apply elem_of_map_to_list, list_elem_of_In.
Qed.

Lemma find_row_None {A} (table : gmap Z A) p :
  List.find (λ kv : Z * A, p kv.2) (map_to_list table) = None ↔
  ∀ k x, table !! k = Some x → p x = false.
Proof.
  split.
  - intros H k x Hk.
    apply elem_of_map_to_list, list_elem_of_In in Hk.
    apply (find_none _ _ H) in Hk. done.
  - intros H. destruct (List.find _ _) as [[k x] |] eqn:E; [| done].
    apply find_row_Some in E as [Hk Hp]. specialize (H k x Hk). congruence.
Qed.

Lemma count_rows_pos {A} (table : gmap Z A) p :
  (Z.of_nat (length (List.filter (λ kv : Z * A, p kv.2) (map_to_list table))) >? 0) = true
  ↔ ∃ k x, table !! k = Some x ∧ p x = true.
Proof.
  rewrite Z.gtb_lt. split.
  - intros H.
    destruct (List.filter _ _) as [| [k x] l] eqn:E; [cbn in H; lia |].
    assert (In (k, x) (List.filter (λ kv : Z * A, p kv.2) (map_to_list table))) as Hin
      by (rewrite E; by left).
    apply filter_In in Hin as [Hin Hp]. exists k, x. split; [| done].
    by apply elem_of_map_to_list, list_elem_of_In.
  - intros (k & x & Hk & Hp).
    assert (In (k, x) (List.filter (λ kv : Z * A, p kv.2) (map_to_list table))) as Hin.
    { apply filter_In. split; [| done]. by apply list_elem_of_In, elem_of_map_to_list. }
    destruct (List.filter _ _); [destruct Hin | cbn; lia].
Qed.

Lemma count_rows_zero {A} (table : gmap Z A) p :
  (Z.of_nat (length (List.filter (λ kv : Z * A, p kv.2) (map_to_list table))) >? 0) = false
  ↔ no_row table p = true.
Proof.
  rewrite <- not_true_iff_false, count_rows_pos, no_row_true. split.
  - intros H k x Hk. destruct (p x) eqn:E; [| done]. exfalso. apply H. eauto.
  - intros H (k & x & Hk & Hp). specialize (H k x Hk). congruence.
Qed.

(** Column assignments look at the [employees] table only. *)
Lemma assign_with_leave_requests db t a row :
  assign (with_leave_requests db t) a row = assign db a row.
Proof. done. Qed.

Lemma assigns_with_leave_requests db t l row :
  assigns (with_leave_requests db t) l row = assigns db l row.
Proof.
  revert row. induction l as [| a l IH]; intros row; [done |].
  cbn [assigns]. rewrite assign_with_leave_requests.
  destruct (assign db a row); [apply IH | done].
Qed.

(** Writing a list of assignments to one stored row. *)
Lemma flush_updates db id l row :
  leave_requests db !! id = Some row →
  flush (map (UPDATE_leave_request id) l) db =
  match assigns db l row with
  | Some row' => Some (with_leave_requests db (<[id := row']> (leave_requests db)), [])
  | None => None
  end.
Proof.
  revert db row. induction l as [| a l IH]; intros db row Hrow.
  - cbn. by rewrite insert_id, with_leave_requests_id.
  - cbn [map flush exec assigns]. rewrite Hrow.
    destruct (assign db a row) as [row1 |]; [| done].
    fold (with_leave_requests db (<[id := row1]> (leave_requests db))).
    rewrite (IH _ row1) by apply lookup_insert_eq.
    rewrite assigns_with_leave_requests.
    destruct (assigns db l row1) as [row2 |]; [| done].
    unfold with_leave_requests. cbn. by rewrite insert_insert_eq.
Qed.

Lemma setattrs_run id l s :
  leaves.setattrs id l s =
  (Return tt, {| store := store s;
                 pending := pending s ++ map (UPDATE_leave_request id) l |}).
Proof.
  revert s. induction l as [| a l IH]; intros [db p].
  - cbn. by rewrite app_nil_r.
  - cbn [leaves.setattrs map]. run. rewrite IH. cbn [store pending].
    by rewrite <- app_assoc.
Qed.

(** *** The handlers in closed form *)

Lemma create_leave_request_run today nextval leave_request db :
  request (leaves.create_leave_request today nextval leave_request) db =
  match employees db !! schemas.LeaveRequestCreate.employee_id leave_request with
  | None =>
      (Raise (HTTPException HTTP_400_BAD_REQUEST
                (EmployeeDoesNotExist (schemas.LeaveRequestCreate.employee_id leave_request))),
       db)
  | Some _ =>
      if date_ltb (schemas.LeaveRequestCreate.end_date leave_request)
                  (schemas.LeaveRequestCreate.start_date leave_request)
      then (Raise (HTTPException HTTP_400_BAD_REQUEST EndBeforeStart), db)
      else
        match List.find (λ kv, leaves.overlapping_filter leave_request kv.2)
                        (map_to_list (leave_requests db)) with
        | Some (overlapping_id, _) =>
            (Raise (HTTPException HTTP_400_BAD_REQUEST (LeaveOverlaps overlapping_id)), db)
        | None =>
            match leave_requests db !! nextval with
            | Some _ => (Raise IntegrityError, db)
            | None =>
                let row := created_row today leave_request in
                (Return (leaves.db_leave_to_schema nextval row),
                 with_leave_requests db (<[nextval := row]> (leave_requests db)))
            end
        end
  end.
Proof.
  unfold leaves.create_leave_request. run.
  destruct (employees db !! _) as [e |] eqn:He; [| done].
  destruct (date_ltb _ _); [done |].
  destruct (List.find _ _) as [[k x] |]; [done |].
  cbn [store pending app flush exec fk_ok
       LeaveRequestModel.employee_id LeaveRequestModel.approved_by].
  rewrite (exists_row_true _ _ _ He).
  destruct (leave_requests db !! nextval) as [used |] eqn:Hkey.
  - by rewrite (exists_row_true _ _ _ Hkey).
  - rewrite (exists_row_false _ _ Hkey). cbn [negb andb app store leave_requests].
    by rewrite lookup_insert_eq.
Qed.

Lemma update_leave_request_run leave_id leave_update db :
  request (leaves.update_leave_request leave_id leave_update) db =
  match leave_requests db !! leave_id with
  | None => (Raise (HTTPException HTTP_404_NOT_FOUND (LeaveNotFound leave_id)), db)
  | Some row =>
      if negb (LeaveStatusEnum_eqb (LeaveRequestModel.status row) PENDING)
      then (Raise (HTTPException HTTP_400_BAD_REQUEST
                     (CannotUpdate (LeaveRequestModel.status row))), db)
      else
        match leaves.get (schemas.LeaveRequestUpdate.end_date leave_update)
                         (LeaveRequestModel.end_date row),
              leaves.get (schemas.LeaveRequestUpdate.start_date leave_update)
                         (LeaveRequestModel.start_date row) with
        | Some e, Some s =>
            if date_ltb e s
            then (Raise (HTTPException HTTP_400_BAD_REQUEST EndBeforeStart), db)
            else
              match assigns db (leaves.items leave_update) row with
              | Some row' =>
                  (Return (leaves.db_leave_to_schema leave_id row'),
                   with_leave_requests db (<[leave_id := row']> (leave_requests db)))
              | None => (Raise IntegrityError, db)
              end
        | _, _ => (Raise TypeError, db)
        end
  end.
Proof.
  unfold leaves.update_leave_request. run.
  destruct (leave_requests db !! leave_id) as [row |] eqn:Hrow; [| done].
  destruct (negb _); [done |].
  unfold leaves.lt_dates.
  destruct (leaves.get (schemas.LeaveRequestUpdate.end_date _) _) as [e |];
    [| done].
  destruct (leaves.get (schemas.LeaveRequestUpdate.start_date _) _) as [s |];
    [| done].
  run. destruct (date_ltb e s); [done |].
  rewrite setattrs_run. cbn [store pending app].
  rewrite (flush_updates _ _ _ row Hrow).
  destruct (assigns _ _ _) as [row' |]; [| done].
  cbn [store with_leave_requests leave_requests]. by rewrite lookup_insert_eq.
Qed.

Lemma delete_leave_request_run leave_id db :
  request (leaves.delete_leave_request leave_id) db =
  match leave_requests db !! leave_id with
  | None => (Raise (HTTPException HTTP_404_NOT_FOUND (LeaveNotFound leave_id)), db)
  | Some row =>
      if negb (LeaveStatusEnum_eqb (LeaveRequestModel.status row) PENDING)
      then (Raise (HTTPException HTTP_400_BAD_REQUEST
                     (CannotDelete (LeaveRequestModel.status row))), db)
      else
        match assigns db [set_status CANCELLED] row with
        | Some row' =>
            (Return tt, with_leave_requests db (<[leave_id := row']> (leave_requests db)))
        | None => (Raise IntegrityError, db)
        end
  end.
Proof.
  unfold leaves.delete_leave_request. run.
  destruct (leave_requests db !! leave_id) as [row |] eqn:Hrow; [| done].
  destruct (negb _); [done |].
  pose proof (flush_updates db leave_id [set_status CANCELLED] row Hrow) as Hf.
  cbn [map] in Hf. cbn [store pending app]. rewrite Hf.
  by destruct (assigns _ _ _).
Qed.

Lemma approve_leave_request_run leave_id approval db :
  request (leaves.approve_leave_request leave_id approval) db =
  match leave_requests db !! leave_id with
  | None => (Raise (HTTPException HTTP_404_NOT_FOUND (LeaveNotFound leave_id)), db)
  | Some row =>
      if negb (LeaveStatusEnum_eqb (LeaveRequestModel.status row) PENDING)
      then (Raise (HTTPException HTTP_400_BAD_REQUEST
                     (CannotApprove (LeaveRequestModel.status row))), db)
      else
        match employees db !! schemas.LeaveApproval.approved_by approval with
        | None =>
            (Raise (HTTPException HTTP_400_BAD_REQUEST
                      (ApproverDoesNotExist (schemas.LeaveApproval.approved_by approval))),
             db)
        | Some _ =>
            match assigns db
                    [set_status (if schemas.LeaveApproval.approved approval
                                 then APPROVED else REJECTED);
                     set_approved_by (Some (schemas.LeaveApproval.approved_by approval))]
                    row with
            | Some row' =>
                (Return (leaves.db_leave_to_schema leave_id row'),
                 with_leave_requests db (<[leave_id := row']> (leave_requests db)))
            | None => (Raise IntegrityError, db)
            end
        end
  end.
Proof.
  unfold leaves.approve_leave_request. run.
  destruct (leave_requests db !! leave_id) as [row |] eqn:Hrow; [| done].
  destruct (negb _); [done |]. cbn [store pending app].
  destruct (employees db !! _) as [a |]; [| done].
  pose proof (flush_updates db leave_id
                [set_status (if schemas.LeaveApproval.approved approval
                             then APPROVED else REJECTED);
                 set_approved_by (Some (schemas.LeaveApproval.approved_by approval))]
                row Hrow) as Hf.
  cbn [map] in Hf. cbn [store pending app]. rewrite Hf.
  destruct (assigns _ _ _) as [row' |]; [| done].
  cbn [store with_leave_requests leave_requests]. by rewrite lookup_insert_eq.
Qed.

Lemma delete_department_run department_id db :
  request (departments.delete_department department_id) db =
  match departments db !! department_id with
  | None =>
      (Raise (HTTPException HTTP_404_NOT_FOUND (DepartmentNotFound department_id)), db)
  | Some _ =>
      if no_row (employees db) (member_of department_id)
      then (Return tt,
            {| departments := delete department_id (departments db);
               employees := employees db;
               leave_requests := leave_requests db |})
      else (Raise (HTTPException HTTP_400_BAD_REQUEST DepartmentHasEmployees), db)
  end.
Proof.
  unfold departments.delete_department. run.
  destruct (departments db !! department_id); [| done].
  cbn [store pending app].
  destruct (_ >? 0) eqn:E.
  - apply (count_rows_pos _ (member_of department_id)) in E as (k & x & Hk & Hp).
    by rewrite (no_row_false _ _ _ _ Hk Hp).
  - apply (count_rows_zero _ (member_of department_id)) in E.
    cbn [store pending app flush exec]. by rewrite E.
Qed.

Lemma delete_employee_run employee_id db :
  request (employees.delete_employee employee_id) db =
  match employees db !! employee_id with
  | None => (Raise (HTTPException HTTP_404_NOT_FOUND (EmployeeNotFound employee_id)), db)
  | Some _ =>
      if no_row (departments db) (managed_by employee_id)
         && no_row (leave_requests db) (references_employee employee_id)
      then (Return tt,
            {| departments := departments db;
               employees := delete employee_id (employees db);
               leave_requests := leave_requests db |})
      else (Raise IntegrityError, db)
  end.
Proof.
  unfold employees.delete_employee. run.
  destruct (employees db !! employee_id); [| done].
  cbn [store pending app flush exec]. by destruct (_ && _).
Qed.

(** *** The overlap query *)

Lemma overlapping_filter_true leave_request row :
  leaves.overlapping_filter leave_request row = true ↔
  LeaveRequestModel.employee_id row = schemas.LeaveRequestCreate.employee_id leave_request
  ∧ active (LeaveRequestModel.status row)
  ∧ overlap (LeaveRequestModel.start_date row) (LeaveRequestModel.end_date row)
            (schemas.LeaveRequestCreate.start_date leave_request)
            (schemas.LeaveRequestCreate.end_date leave_request).
Proof.
  unfold leaves.overlapping_filter, leaves.status_in_pending_approved, active,
    overlap, date_lt, date_gtb.
  rewrite !andb_true_iff, negb_true_iff, orb_false_iff, Z.eqb_eq, orb_true_iff.
  destruct (date_ltb (LeaveRequestModel.end_date row) _),
    (date_ltb (schemas.LeaveRequestCreate.end_date leave_request) _),
    (LeaveRequestModel.status row); cbn; intuition congruence.
Qed.

(** The query finds nothing exactly when every pending or approved request
    of the employee lies before or after the new range. *)
Lemma no_overlapping_row leave_request (table : gmap Z LeaveRequestModel.t) :
  List.find (λ kv, leaves.overlapping_filter leave_request kv.2) (map_to_list table) = None
  ↔ ∀ k row,
      table !! k = Some row →
      LeaveRequestModel.employee_id row = schemas.LeaveRequestCreate.employee_id leave_request →
      active (LeaveRequestModel.status row) →
      ¬ overlap (LeaveRequestModel.start_date row) (LeaveRequestModel.end_date row)
                (schemas.LeaveRequestCreate.start_date leave_request)
                (schemas.LeaveRequestCreate.end_date leave_request).
Proof.
  rewrite find_row_None. split; intros H k row Hk.
  - intros He Ha Ho. specialize (H k row Hk).
    apply not_true_iff_false in H. apply H, overlapping_filter_true. done.
  - apply not_true_iff_false. rewrite overlapping_filter_true.
    intros (He & Ha & Ho). by apply (H k row).
Qed.

(** A range that ends on the day another one starts overlaps it. *)
Lemma shared_endpoint_overlap a b c :
  date_le a b → date_le b c → overlap a b b c.
Proof. unfold overlap. date_order. Qed.

(** *** Leave ledger: create *)

(** C1. A create call for an existing employee with end date not before
    start date fails with Conflict, and stores nothing, as soon as a
    stored request of the same employee that is pending or approved has a
    range [[a, b]] with not ([b < startDate] or [a > endDate]). *)
Theorem create_overlap_is_conflict
    (today : date) (nextval : Z) (leave_request : schemas.LeaveRequestCreate.t)
    (db : Database) (e : EmployeeModel.t) (k : Z) (row : LeaveRequestModel.t) :
  employees db !! schemas.LeaveRequestCreate.employee_id leave_request = Some e →
  date_le (schemas.LeaveRequestCreate.start_date leave_request)
          (schemas.LeaveRequestCreate.end_date leave_request) →
  leave_requests db !! k = Some row →
  LeaveRequestModel.employee_id row = schemas.LeaveRequestCreate.employee_id leave_request →
  active (LeaveRequestModel.status row) →
  overlap (LeaveRequestModel.start_date row) (LeaveRequestModel.end_date row)
          (schemas.LeaveRequestCreate.start_date leave_request)
          (schemas.LeaveRequestCreate.end_date leave_request) →
  fails_with (request (leaves.create_leave_request today nextval leave_request) db).1 Conflict
  ∧ (request (leaves.create_leave_request today nextval leave_request) db).2 = db.
Proof.
  intros He Hle Hk Hemp Hact Hov.
  rewrite create_leave_request_run, He.
  destruct (date_ltb _ _) eqn:Hlt; [by destruct Hle |].
  destruct (List.find _ _) as [[k' row'] |] eqn:Hfind.
  - split; [| done]. by eexists.
  - exfalso. rewrite no_overlapping_row in Hfind. by apply (Hfind k row).
Qed.

(** The boundary case of C1: January 1 to 5 is stored and pending, and a
    create for January 5 to 10 is rejected. *)
Lemma create_overlap_is_conflict_witness :
  let leave_request :=
    schemas.LeaveRequestCreate.Build 3 schemas.SICK (jan 5) (jan 10) "Flu" in
  fails_with (request (leaves.create_leave_request (jan 2) 4 leave_request) sample_db).1
             Conflict
  ∧ (request (leaves.create_leave_request (jan 2) 4 leave_request) sample_db).2 = sample_db.
Proof.
  intros leave_request.
  apply (create_overlap_is_conflict (jan 2) 4 leave_request sample_db
           (employee "Ravi" "Rao" "ravi@example.com" 1) 1
           (leave 3 (jan 1) (jan 5) PENDING None)).
  - reflexivity.
  - unfold date_le, date_lt. vm_compute. discriminate.
  - reflexivity.
  - reflexivity.
  - left. reflexivity.
  - unfold overlap, date_lt. vm_compute. intros [H | H]; discriminate H.
Defined.




(** Disjoint ranges do not block, a shared end point does: after a create
    for January 1 to 4, January 5 to 10 is accepted; after a create for
    January 1 to 5 it is rejected. *)
Example create_boundary :
  let db := {| departments := sample_departments; employees := sample_employees;
               leave_requests := ∅ |} in
  let first b := schemas.LeaveRequestCreate.Build 2 schemas.VACATION (jan 1) (jan b) "Trip" in
  let second := schemas.LeaveRequestCreate.Build 2 schemas.VACATION (jan 5) (jan 10) "Trip" in
  (request (leaves.create_leave_request (jan 1) 2 second)
           (request (leaves.create_leave_request (jan 1) 1 (first 4)) db).2).1
  = Return (schemas.LeaveRequest.Build 2 2 schemas.VACATION (jan 5) (jan 10) "Trip"
              schemas.PENDING None (jan 1))
  ∧ (request (leaves.create_leave_request (jan 1) 2 second)
             (request (leaves.create_leave_request (jan 1) 1 (first 5)) db).2).1
    = Raise (HTTPException 400 (LeaveOverlaps 1)).
Proof. split; vm_compute; reflexivity. Qed.

(** *** Leave ledger: the lifecycle *)

Lemma status_not_pending st :
  st = APPROVED ∨ st = REJECTED ∨ st = CANCELLED →
  negb (LeaveStatusEnum_eqb st PENDING) = true.
Proof. by intros [-> | [-> | ->]]. Qed.

(** C3. On a request whose stored status is approved, rejected or
    cancelled, update, cancel and approve fail with InvalidState, whatever
    the other arguments. *)
Theorem not_pending_is_invalid_state
    (db : Database) (leave_id : Z) (row : LeaveRequestModel.t) :
  leave_requests db !! leave_id = Some row →
  LeaveRequestModel.status row = APPROVED
  ∨ LeaveRequestModel.status row = REJECTED
  ∨ LeaveRequestModel.status row = CANCELLED →
  (∀ leave_update,
     fails_with (request (leaves.update_leave_request leave_id leave_update) db).1
                InvalidState)
  ∧ fails_with (request (leaves.delete_leave_request leave_id) db).1 InvalidState
  ∧ (∀ approval,
       fails_with (request (leaves.approve_leave_request leave_id approval) db).1
                  InvalidState).
Proof.
  intros Hrow Hst%status_not_pending. repeat split; intros.
  - rewrite update_leave_request_run, Hrow, Hst. by eexists.
  - rewrite delete_leave_request_run, Hrow, Hst. by eexists.
  - rewrite approve_leave_request_run, Hrow, Hst. by eexists.
Qed.

(** An instance of C3: request 2 of the sample data is approved. *)
Lemma not_pending_is_invalid_state_witness :
  (∀ leave_update,
     fails_with (request (leaves.update_leave_request 2 leave_update) sample_db).1
                InvalidState)
  ∧ fails_with (request (leaves.delete_leave_request 2) sample_db).1 InvalidState
  ∧ (∀ approval,
       fails_with (request (leaves.approve_leave_request 2 approval) sample_db).1
                  InvalidState).
Proof.
  apply (not_pending_is_invalid_state sample_db 2 (leave 3 (jan 20) (jan 25) APPROVED (Some 1))).
  - reflexivity.
  - left. reflexivity.
Defined.

(** C4. Approving a pending request with an existing approver succeeds;
    the stored row gets status approved or rejected, according to the flag,
    and the approver's id, every other column, row and table stays as it
    was, and the comments are stored nowhere. *)
Theorem approve_sets_status_and_approver
    (db : Database) (leave_id : Z) (row : LeaveRequestModel.t)
    (approval : schemas.LeaveApproval.t) (approver : EmployeeModel.t) :
  leave_requests db !! leave_id = Some row →
  LeaveRequestModel.status row = PENDING →
  employees db !! schemas.LeaveApproval.approved_by approval = Some approver →
  let row' :=
    {| LeaveRequestModel.employee_id := LeaveRequestModel.employee_id row;
       LeaveRequestModel.leave_type := LeaveRequestModel.leave_type row;
       LeaveRequestModel.start_date := LeaveRequestModel.start_date row;
       LeaveRequestModel.end_date := LeaveRequestModel.end_date row;
       LeaveRequestModel.reason := LeaveRequestModel.reason row;
       LeaveRequestModel.status :=
         if schemas.LeaveApproval.approved approval then APPROVED else REJECTED;
       LeaveRequestModel.approved_by := Some (schemas.LeaveApproval.approved_by approval);
       LeaveRequestModel.created_at := LeaveRequestModel.created_at row |} in
  request (leaves.approve_leave_request leave_id approval) db
  = (Return (leaves.db_leave_to_schema leave_id row'),
     with_leave_requests db (<[leave_id := row']> (leave_requests db)))
  ∧ (∀ comments,
       request (leaves.approve_leave_request leave_id
                  (schemas.LeaveApproval.Build
                     (schemas.LeaveApproval.approved approval)
                     (schemas.LeaveApproval.approved_by approval) comments)) db
       = request (leaves.approve_leave_request leave_id approval) db).
Proof.
  intros Hrow Hst Happ row'.
  split; [| intros comments; by rewrite !approve_leave_request_run].
  rewrite approve_leave_request_run, Hrow, Hst, Happ. cbn [negb LeaveStatusEnum_eqb].
  destruct row. cbn [assigns assign fk_ok].
  by rewrite (exists_row_true _ _ _ Happ).
Qed.

(** An instance of C4: employee 1 rejects request 1 of the sample data,
    with a comment. *)
Lemma approve_sets_status_and_approver_witness :
  request (leaves.approve_leave_request 1
             (schemas.LeaveApproval.Build false 1 (Some "Release week"))) sample_db
  = (Return (schemas.LeaveRequest.Build 1 3 schemas.VACATION (jan 1) (jan 5)
               "Family trip" schemas.REJECTED (Some 1) (Date 2023 12 1)),
     with_leave_requests sample_db
       (<[1 := leave 3 (jan 1) (jan 5) REJECTED (Some 1)]> (leave_requests sample_db))).
Proof.
  apply (approve_sets_status_and_approver sample_db 1 (leave 3 (jan 1) (jan 5) PENDING None)
           (schemas.LeaveApproval.Build false 1 (Some "Release week"))
           (employee "John" "Doe" "john@example.com" 1) eq_refl eq_refl eq_refl).
Defined.

(** The claim C7 as stated: a missing approver gives NotFound whatever the
    status of the request. It fails on the approved request 2: the status
    is checked first and the failure is InvalidState. *)
Lemma approve_missing_approver_counterexample :
  let approval := schemas.LeaveApproval.Build true 99 None in
  leave_requests sample_db !! 2 = Some (leave 3 (jan 20) (jan 25) APPROVED (Some 1))
  ∧ employees sample_db !! 99 = None
  ∧ request (leaves.approve_leave_request 2 approval) sample_db
    = (Raise (HTTPException 400 (CannotApprove APPROVED)), sample_db)
  ∧ ¬ fails_with (request (leaves.approve_leave_request 2 approval) sample_db).1 NotFound.
Proof.
  repeat split; try (vm_compute; reflexivity).
  intros (e & He & Hk). vm_compute in He. by injection He as <-.
Qed.

(** C7, amended. On a pending request, approve with an approver id that
    is the id of no employee fails with NotFound and changes nothing. *)
Theorem approve_missing_approver_pending
    (db : Database) (leave_id : Z) (row : LeaveRequestModel.t)
    (approval : schemas.LeaveApproval.t) :
  leave_requests db !! leave_id = Some row →
  LeaveRequestModel.status row = PENDING →
  employees db !! schemas.LeaveApproval.approved_by approval = None →
  fails_with (request (leaves.approve_leave_request leave_id approval) db).1 NotFound
  ∧ (request (leaves.approve_leave_request leave_id approval) db).2 = db.
Proof.
  intros Hrow Hst Happ.
  rewrite approve_leave_request_run, Hrow, Hst, Happ. split; [by eexists | done].
Qed.

Lemma approve_missing_approver_pending_witness :
  let approval := schemas.LeaveApproval.Build true 99 None in
  fails_with (request (leaves.approve_leave_request 1 approval) sample_db).1 NotFound
  ∧ (request (leaves.approve_leave_request 1 approval) sample_db).2 = sample_db.
Proof.
  intros approval.
  apply (approve_missing_approver_pending sample_db 1
           (leave 3 (jan 1) (jan 5) PENDING None) approval); reflexivity.
Defined.

(** *** Leave ledger: update *)

Lemma LeaveType_of_LeaveTypeEnum_of x : LeaveType_of (LeaveTypeEnum_of x) = x.
Proof. by destruct x. Qed.

(** What the assignments of an update body do to a row, when the store
    accepts them. *)
Lemma items_assigns db leave_update row row' :
  assigns db (leaves.items leave_update) row = Some row' →
  leaves.get (schemas.LeaveRequestUpdate.leave_type leave_update)
             (LeaveType_of (LeaveRequestModel.leave_type row))
    = Some (LeaveType_of (LeaveRequestModel.leave_type row'))
  ∧ leaves.get (schemas.LeaveRequestUpdate.start_date leave_update)
               (LeaveRequestModel.start_date row)
    = Some (LeaveRequestModel.start_date row')
  ∧ leaves.get (schemas.LeaveRequestUpdate.end_date leave_update)
               (LeaveRequestModel.end_date row)
    = Some (LeaveRequestModel.end_date row')
  ∧ leaves.get (schemas.LeaveRequestUpdate.reason leave_update)
               (LeaveRequestModel.reason row)
    = Some (LeaveRequestModel.reason row')
  ∧ LeaveRequestModel.employee_id row' = LeaveRequestModel.employee_id row
  ∧ LeaveRequestModel.status row' = LeaveRequestModel.status row
  ∧ LeaveRequestModel.approved_by row' = LeaveRequestModel.approved_by row
  ∧ LeaveRequestModel.created_at row' = LeaveRequestModel.created_at row.
Proof.
  destruct leave_update as [[| [t |]] [| [s |]] [| [e |]] [| [r |]]], row;
    cbn; intros H; try discriminate H; injection H as <-; cbn;
    rewrite ?LeaveType_of_LeaveTypeEnum_of; done.
Qed.








(** *** Leave ledger: failed operations *)

(** C8. create, update, cancel and approve are all-or-nothing: when one of
    them raises (every validation failure is a raise), the stored tables
    after the request are the stored tables before it. *)
Theorem failure_leaves_store_untouched
    (db : Database) (today : date) (nextval : Z)
    (leave_request : schemas.LeaveRequestCreate.t)
    (leave_id : Z) (leave_update : schemas.LeaveRequestUpdate.t)
    (approval : schemas.LeaveApproval.t) :
  (∀ e, (request (leaves.create_leave_request today nextval leave_request) db).1 = Raise e →
        (request (leaves.create_leave_request today nextval leave_request) db).2 = db)
  ∧ (∀ e, (request (leaves.update_leave_request leave_id leave_update) db).1 = Raise e →
          (request (leaves.update_leave_request leave_id leave_update) db).2 = db)
  ∧ (∀ e, (request (leaves.delete_leave_request leave_id) db).1 = Raise e →
          (request (leaves.delete_leave_request leave_id) db).2 = db)
  ∧ (∀ e, (request (leaves.approve_leave_request leave_id approval) db).1 = Raise e →
          (request (leaves.approve_leave_request leave_id approval) db).2 = db).
Proof.
  rewrite create_leave_request_run, update_leave_request_run,
    delete_leave_request_run, approve_leave_request_run.
  repeat split; intros e; repeat case_match; cbn [fst snd]; done.
Qed.

(** Instances of C8 on the sample data, one for each kind of validation
    failure: an unknown request, an end date before the start date, an
    overlap and a request that is not pending. *)
Lemma failure_leaves_store_untouched_witness :
  (request (leaves.delete_leave_request 7) sample_db).2 = sample_db
  ∧ (request (leaves.update_leave_request 1
                (schemas.LeaveRequestUpdate.Build schemas.Unset schemas.Unset
                   (schemas.SetTo (Some (Date 2023 12 31))) schemas.Unset))
             sample_db).2 = sample_db
  ∧ (request (leaves.create_leave_request (jan 2) 4
                (schemas.LeaveRequestCreate.Build 3 schemas.SICK (jan 5) (jan 10) "Flu"))
             sample_db).2 = sample_db
  ∧ (request (leaves.approve_leave_request 3 (schemas.LeaveApproval.Build true 1 None))
             sample_db).2 = sample_db.
Proof.
  pose (leave_request :=
          schemas.LeaveRequestCreate.Build 3 schemas.SICK (jan 5) (jan 10) "Flu").
  pose (leave_update :=
          schemas.LeaveRequestUpdate.Build schemas.Unset schemas.Unset
            (schemas.SetTo (Some (Date 2023 12 31))) schemas.Unset).
  pose (approval := schemas.LeaveApproval.Build true 1 None).
  split; [| split; [| split]].
  - destruct (failure_leaves_store_untouched sample_db (jan 2) 4 leave_request 7
                leave_update approval) as (_ & _ & Hcancel & _).
    apply (Hcancel (HTTPException 404 (LeaveNotFound 7))). reflexivity.
  - destruct (failure_leaves_store_untouched sample_db (jan 2) 4 leave_request 1
                leave_update approval) as (_ & Hupdate & _ & _).
    apply (Hupdate (HTTPException 400 EndBeforeStart)). reflexivity.
  - destruct (failure_leaves_store_untouched sample_db (jan 2) 4 leave_request 3
                leave_update approval) as (Hcreate & _ & _ & _).
    apply (Hcreate (HTTPException 400 (LeaveOverlaps 1))). reflexivity.
  - destruct (failure_leaves_store_untouched sample_db (jan 2) 4 leave_request 3
                leave_update approval) as (_ & _ & _ & Happrove).
    apply (Happrove (HTTPException 400 (CannotApprove REJECTED))). reflexivity.
Defined.

(** *** Department registry and employee directory *)

Lemma member_of_true id e :
  member_of id e = true ↔ EmployeeModel.department_id e = id.
Proof. apply Z.eqb_eq. Qed.

(** C9. Deleting an existing department fails with InvalidState exactly
    when some employee has that department id; when none has, the delete
    succeeds and removes the department, and nothing else. *)
Theorem delete_department_iff_no_employees
    (db : Database) (department_id : Z) (d : DepartmentModel.t) :
  departments db !! department_id = Some d →
  (fails_with (request (departments.delete_department department_id) db).1 InvalidState
   ↔ ∃ k e, employees db !! k = Some e ∧ EmployeeModel.department_id e = department_id)
  ∧ ((¬ ∃ k e, employees db !! k = Some e
               ∧ EmployeeModel.department_id e = department_id) →
     request (departments.delete_department department_id) db
     = (Return tt,
        {| departments := delete department_id (departments db);
           employees := employees db;
           leave_requests := leave_requests db |})
     ∧ departments (request (departments.delete_department department_id) db).2
         !! department_id = None).
Proof.
  intros Hd. rewrite delete_department_run, Hd.
  destruct (no_row (employees db) (member_of department_id)) eqn:Hno.
  - rewrite no_row_true in Hno.
    assert (¬ ∃ k e, employees db !! k = Some e
                     ∧ EmployeeModel.department_id e = department_id) as Hnone.
    { intros (k & e & Hk & He). apply member_of_true in He.
      specialize (Hno k e Hk). congruence. }
    split; [split; [| done] |].
    + intros (x & Hx & _). discriminate Hx.
    + intros _. split; [done |]. cbn [snd departments]. apply lookup_delete_eq.
  - assert (∃ k e, employees db !! k = Some e
                   ∧ EmployeeModel.department_id e = department_id) as Hsome.
    { apply not_true_iff_false in Hno. rewrite no_row_true in Hno.
      destruct (List.find (λ kv : Z * EmployeeModel.t, member_of department_id kv.2)
                  (map_to_list (employees db))) as [[k e] |] eqn:Hfind.
      - apply find_row_Some in Hfind as [Hk He]. apply member_of_true in He. eauto.
      - exfalso. apply Hno. by apply find_row_None. }
    split; [split; [done |] | done].
    intros _. by eexists.
Qed.

(** Instances of C9 on the sample data: Engineering has employees, and the
    delete is refused; Archive has none, and is removed. *)
Lemma delete_department_iff_no_employees_witness :
  fails_with (request (departments.delete_department 1) sample_db).1 InvalidState
  ∧ request (departments.delete_department 2) sample_db
    = (Return tt,
       {| departments := delete 2 (departments sample_db);
          employees := employees sample_db;
          leave_requests := leave_requests sample_db |})
  ∧ departments (request (departments.delete_department 2) sample_db).2 !! 2 = None.
Proof.
  split.
  - apply (delete_department_iff_no_employees sample_db 1
             (DepartmentModel.Build "Engineering" "Software" (Some 1)) eq_refl).
    exists 1, (employee "John" "Doe" "john@example.com" 1). split; reflexivity.
  - apply (delete_department_iff_no_employees sample_db 2
             (DepartmentModel.Build "Archive" "Records" None) eq_refl).
    intros (k & e & Hk & He).
    assert (no_row (employees sample_db) (member_of 2) = true) as Hno
      by (vm_compute; reflexivity).
    rewrite no_row_true in Hno. specialize (Hno k e Hk).
    apply member_of_true in He. congruence.
Defined.

Lemma references_employee_true id l :
  references_employee id l = true ↔
  LeaveRequestModel.employee_id l = id ∨ LeaveRequestModel.approved_by l = Some id.
Proof.
  unfold references_employee.
  by rewrite orb_true_iff, Z.eqb_eq, bool_decide_eq_true.
Qed.

Lemma managed_by_true id d :
  managed_by id d = true ↔ DepartmentModel.manager_id d = Some id.
Proof. apply bool_decide_eq_true. Qed.

(** The foreign keys to [employees.id] let the row go exactly when no
    department and no leave request refers to it. *)
Lemma unreferenced_check db id :
  no_row (departments db) (managed_by id)
  && no_row (leave_requests db) (references_employee id) = true
  ↔ ¬ referenced db id.
Proof.
  rewrite andb_true_iff, !no_row_true. unfold referenced. split.
  - intros [Hd Hl] [(k & d & Hk & Hm) | (k & l & Hk & Hr)].
    + apply managed_by_true in Hm. specialize (Hd k d Hk). congruence.
    + apply references_employee_true in Hr. specialize (Hl k l Hk). congruence.
  - intros H. split; intros k x Hk.
    + destruct (managed_by id x) eqn:E; [| done].
      exfalso. apply H. left. exists k, x. by rewrite <- managed_by_true.
    + destruct (references_employee id x) eqn:E; [| done].
      exfalso. apply H. right. exists k, x. by rewrite <- references_employee_true.
Qed.

(** The claim C10 as stated: deleting an existing employee always succeeds
    and leaves dangling references behind. It fails on employee 3 of the
    sample data, who has leave requests: the commit is refused, and the
    employee stays. *)
Lemma delete_employee_counterexample :
  employees sample_db !! 3 = Some (employee "Ravi" "Rao" "ravi@example.com" 1)
  ∧ leave_requests sample_db !! 1 = Some (leave 3 (jan 1) (jan 5) PENDING None)
  ∧ request (employees.delete_employee 3) sample_db = (Raise IntegrityError, sample_db)
  ∧ (request (employees.delete_employee 3) sample_db).1 ≠ Return tt.
Proof. repeat split; try (vm_compute; reflexivity). vm_compute. discriminate. Qed.

(** C10, amended. Deleting an existing employee modifies no other record.
    It succeeds, and removes that employee only, when no department names
    the employee as manager and no leave request names the employee as
    requester or approver; when some record does, the foreign keys on
    those columns make the commit fail and every table stays as it was, so
    that no reference is left dangling. *)
Theorem delete_employee_keeps_references
    (db : Database) (employee_id : Z) (e : EmployeeModel.t) :
  employees db !! employee_id = Some e →
  (¬ referenced db employee_id →
   request (employees.delete_employee employee_id) db
   = (Return tt,
      {| departments := departments db;
         employees := delete employee_id (employees db);
         leave_requests := leave_requests db |}))
  ∧ (referenced db employee_id →
     request (employees.delete_employee employee_id) db = (Raise IntegrityError, db))
  ∧ departments (request (employees.delete_employee employee_id) db).2 = departments db
  ∧ leave_requests (request (employees.delete_employee employee_id) db).2
    = leave_requests db
  ∧ (∀ k, k ≠ employee_id →
          employees (request (employees.delete_employee employee_id) db).2 !! k
          = employees db !! k).
Proof.
  intros He. rewrite delete_employee_run, He.
  destruct (_ && _) eqn:Hchk.
  - apply unreferenced_check in Hchk. repeat split; try done.
    intros k Hk. cbn [snd employees]. by apply lookup_delete_ne.
  - apply not_true_iff_false in Hchk. rewrite unreferenced_check in Hchk.
    repeat split; try done.
Qed.

(** Instances of C10 on the sample data: employee 2 is referenced nowhere
    and is removed; employee 1 manages Engineering and stays. *)
Lemma delete_employee_keeps_references_witness :
  request (employees.delete_employee 2) sample_db
  = (Return tt,
     {| departments := departments sample_db;
        employees := delete 2 (employees sample_db);
        leave_requests := leave_requests sample_db |})
  ∧ request (employees.delete_employee 1) sample_db = (Raise IntegrityError, sample_db).
Proof.
  split.
  - apply (delete_employee_keeps_references sample_db 2
             (employee "Jane" "Roe" "jane@example.com" 1) eq_refl).
    apply unreferenced_check. vm_compute. reflexivity.
  - apply (delete_employee_keeps_references sample_db 1
             (employee "John" "Doe" "john@example.com" 1) eq_refl).
    left. exists 1, (DepartmentModel.Build "Engineering" "Software" (Some 1)).
    split; reflexivity.
Defined.

(** ** Further properties *)

(** *** The read handlers in closed form *)

Lemma get_leave_request_run leave_id db :
  request (leaves.get_leave_request leave_id) db =
  match leave_requests db !! leave_id with
  | None => (Raise (HTTPException HTTP_404_NOT_FOUND (LeaveNotFound leave_id)), db)
  | Some row => (Return (leaves.db_leave_to_schema leave_id row), db)
  end.
Proof.
  unfold leaves.get_leave_request. run. by destruct (leave_requests db !! leave_id).
Qed.

Lemma get_leave_requests_run employee_id status_filter leave_type skip limit db :
  request (leaves.get_leave_requests employee_id status_filter leave_type skip limit) db =
  (Return (map (λ lr, leaves.db_leave_to_schema lr.1 lr.2)
             (offset_limit skip limit
                (List.filter
                   (λ kv, leaves.list_filter employee_id status_filter leave_type kv.2)
                   (map_to_list (leave_requests db))))), db).
Proof. done. Qed.

Lemma get_employee_run v employee_id db :
  request (employees.get_employee v employee_id) db =
  match employees db !! employee_id with
  | None => (Raise (HTTPException HTTP_404_NOT_FOUND (EmployeeNotFound employee_id)), db)
  | Some row => (employees.db_employee_to_schema v employee_id row, db)
  end.
Proof.
  unfold employees.get_employee. run. by destruct (employees db !! employee_id).
Qed.

Lemma to_schemas_run v rows s :
  employees.to_schemas v rows s = (responses v rows, s).
Proof.
  induction rows as [| emp rows IH]; [done |].
  cbn [employees.to_schemas responses]. run. unfold call.
  destruct (employees.db_employee_to_schema v emp.1 emp.2); [| done].
  rewrite IH. by destruct (responses v rows).
Qed.


Lemma get_employees_by_department_run v department_id db :
  request (employees.get_employees_by_department v department_id) db =
  match departments db !! department_id with
  | None =>
      (Raise (HTTPException HTTP_404_NOT_FOUND (DepartmentNotFound department_id)), db)
  | Some _ =>
      (responses v (List.filter (λ kv, member_of department_id kv.2)
                      (map_to_list (employees db))), db)
  end.
Proof.
  unfold employees.get_employees_by_department. run.
  destruct (departments db !! department_id); [| done].
  unfold query_employees_all. cbn [store]. by rewrite to_schemas_run.
Qed.


Lemma db_employee_to_schema_Raise v k row e :
  employees.db_employee_to_schema v k row = Raise e → e = ValidationError.
Proof.
  unfold employees.db_employee_to_schema.
  destruct (schemas.Employee.init _ _ _ _ _ _ _ _ _ _ _); [done |]. by intros [= <-].
Qed.

Lemma responses_Return v rows items :
  responses v rows = Return items
  ↔ Forall2 (λ emp x, employees.db_employee_to_schema v emp.1 emp.2 = Return x)
            rows items.
Proof.
  revert items. induction rows as [| emp rows IH]; intros items; cbn [responses].
  - split; [intros [= <-]; constructor | by intros ->%Forall2_nil_inv_l].
  - split.
    + destruct (employees.db_employee_to_schema v emp.1 emp.2) as [x |] eqn:Hx;
        [| done].
      destruct (responses v rows) as [xs |]; [| done].
      intros [= <-]. constructor; [done | by apply IH].
    + intros (x & xs & Hx & Hxs & ->)%Forall2_cons_inv_l.
      rewrite Hx. apply IH in Hxs. by rewrite Hxs.
Qed.

Lemma responses_Raise_inv v rows e :
  responses v rows = Raise e →
  e = ValidationError ∧ ∃ emp, emp ∈ rows ∧ ¬ presentable v emp.1 emp.2.
Proof.
  revert e. induction rows as [| emp rows IH]; intros e; cbn [responses]; [done |].
  destruct (employees.db_employee_to_schema v emp.1 emp.2) as [x | e0] eqn:Hx.
  - destruct (responses v rows) as [xs | e0] eqn:Hxs; [done |].
    intros [= <-]. destruct (IH e0 eq_refl) as (-> & emp' & Hin & Hno).
    split; [done |]. exists emp'. split; [by right | done].
  - intros [= <-]. split; [by apply db_employee_to_schema_Raise in Hx |].
    exists emp. split; [by left |]. intros [y Hy]. congruence.
Qed.

Lemma responses_total v rows :
  (∀ emp, emp ∈ rows → presentable v emp.1 emp.2) ↔ ∃ items, responses v rows = Return items.
Proof.
  split.
  - intros Hall. destruct (responses v rows) as [items | e] eqn:Hr; [by eexists |].
    apply responses_Raise_inv in Hr as (_ & emp & Hin & Hno). destruct Hno. by apply Hall.
  - intros [items Hr] emp Hin. apply responses_Return in Hr.
    apply list_elem_of_lookup in Hin as [i Hi].
    destruct (Forall2_lookup_l _ _ _ _ _ Hr Hi) as (y & _ & Hy). by exists y.
Qed.

Lemma responses_Raise v rows :
  responses v rows = Raise ValidationError
  ↔ ∃ emp, emp ∈ rows ∧ ¬ presentable v emp.1 emp.2.
Proof.
  split.
  - by intros (_ & H)%responses_Raise_inv.
  - intros (emp & Hin & Hno).
    destruct (responses v rows) as [items | e] eqn:Hr.
    + destruct Hno. apply (proj2 (responses_total v rows)); [by exists items | done].
    + by apply responses_Raise_inv in Hr as (-> & _).
Qed.


Lemma responses_elem v rows items x :
  responses v rows = Return items →
  x ∈ items ↔ ∃ emp, emp ∈ rows ∧ employees.db_employee_to_schema v emp.1 emp.2 = Return x.
Proof.
  intros Hr%responses_Return. split.
  - intros [i Hi]%list_elem_of_lookup.
    destruct (Forall2_lookup_r _ _ _ _ _ Hr Hi) as (emp & Hemp & Hx).
    exists emp. split; [by eapply list_elem_of_lookup_2 | done].
  - intros (emp & [i Hi]%list_elem_of_lookup & Hx).
    destruct (Forall2_lookup_l _ _ _ _ _ Hr Hi) as (y & Hy & Hxy).
    assert (y = x) as -> by congruence. by eapply list_elem_of_lookup_2.
Qed.

Lemma get_department_run department_id db :
  request (departments.get_department department_id) db =
  match departments db !! department_id with
  | None =>
      (Raise (HTTPException HTTP_404_NOT_FOUND (DepartmentNotFound department_id)), db)
  | Some d =>
      (Return {| schemas.Department.id := department_id;
                 schemas.Department.name := DepartmentModel.name d;
                 schemas.Department.description := DepartmentModel.description d;
                 schemas.Department.manager_id := DepartmentModel.manager_id d;
                 schemas.Department.employee_count :=
                   count_rows (member_of department_id) (employees db) |}, db)
  end.
Proof.
  unfold departments.get_department. run.
  by destruct (departments db !! department_id).
Qed.

(** *** What a leave handler writes *)

Lemma cancel_pending_run leave_id row db :
  leave_requests db !! leave_id = Some row →
  LeaveRequestModel.status row = PENDING →
  request (leaves.delete_leave_request leave_id) db =
  (Return tt,
   with_leave_requests db (<[leave_id := with_status CANCELLED row]> (leave_requests db))).
Proof.
  intros Hrow Hst. rewrite delete_leave_request_run, Hrow, Hst. by destruct row.
Qed.

Lemma approve_pending_run leave_id approval row approver db :
  leave_requests db !! leave_id = Some row →
  LeaveRequestModel.status row = PENDING →
  employees db !! schemas.LeaveApproval.approved_by approval = Some approver →
  let row' := with_decision (schemas.LeaveApproval.approved approval)
                (schemas.LeaveApproval.approved_by approval) row in
  request (leaves.approve_leave_request leave_id approval) db =
  (Return (leaves.db_leave_to_schema leave_id row'),
   with_leave_requests db (<[leave_id := row']> (leave_requests db))).
Proof.
  intros Hrow Hst Happ row'.
  rewrite approve_leave_request_run, Hrow, Hst, Happ. cbn [negb LeaveStatusEnum_eqb].
  destruct row. cbn [assigns assign fk_ok].
  by rewrite (exists_row_true _ _ _ Happ).
Qed.

Lemma status_pending_or st :
  st = PENDING ∨ negb (LeaveStatusEnum_eqb st PENDING) = true.
Proof. destruct st; auto. Qed.

Lemma double_booked_created leave_request today row :
  double_booked row (created_row today leave_request)
  ↔ leaves.overlapping_filter leave_request row = true.
Proof.
  rewrite overlapping_filter_true. unfold double_booked, active.
  cbn [created_row LeaveRequestModel.employee_id LeaveRequestModel.status
       LeaveRequestModel.start_date LeaveRequestModel.end_date].
  split.
  - by intros (He & Ha & _ & Ho).
  - intros (He & Ha & Ho). repeat split; try done. by left.
Qed.

(** Each leave handler leaves the tables as they are, or writes one row of
    [leave_requests]. *)
Lemma create_leave_request_change today nextval leave_request db :
  (request (leaves.create_leave_request today nextval leave_request) db).2 = db
  ∨ ∃ k row',
      leave_change db k row'
      ∧ (request (leaves.create_leave_request today nextval leave_request) db).2
        = with_leave_requests db (<[k := row']> (leave_requests db)).
Proof.
  rewrite create_leave_request_run.
  destruct (employees db !! _) as [e |] eqn:He; [| by left].
  destruct (date_ltb _ _) eqn:Hlt; [by left |].
  destruct (List.find _ _) as [[k x] |] eqn:Hfind; [by left |].
  destruct (leave_requests db !! nextval) as [used |] eqn:Hkey; [by left |].
  right. eexists _, _. split; [| done]. constructor.
  - done.
  - by eexists.
  - unfold date_le, date_lt. congruence.
  - intros k row Hk Hdb. apply double_booked_created in Hdb.
    rewrite find_row_None in Hfind. specialize (Hfind k row Hk). congruence.
Qed.

Lemma update_leave_request_change leave_id leave_update db :
  (request (leaves.update_leave_request leave_id leave_update) db).2 = db
  ∨ ∃ k row',
      leave_change db k row'
      ∧ (request (leaves.update_leave_request leave_id leave_update) db).2
        = with_leave_requests db (<[k := row']> (leave_requests db)).
Proof.
  rewrite update_leave_request_run.
  destruct (leave_requests db !! leave_id) as [row |] eqn:Hrow; [| by left].
  destruct (status_pending_or (LeaveRequestModel.status row)) as [Hst | ->]; [| by left].
  rewrite Hst. cbn [negb LeaveStatusEnum_eqb].
  destruct (leaves.get (schemas.LeaveRequestUpdate.end_date _) _) as [e |] eqn:Ee;
    [| by left].
  destruct (leaves.get (schemas.LeaveRequestUpdate.start_date _) _) as [s |] eqn:Es;
    [| by left].
  destruct (date_ltb e s) eqn:Hlt; [by left |].
  destruct (assigns _ _ _) as [row' |] eqn:Hrow'; [| by left].
  right. exists leave_id, row'. split; [| done].
  apply (change_update db leave_id leave_update row row'); try done.
  apply items_assigns in Hrow' as (_ & Hs & He & _).
  rewrite Es in Hs. rewrite Ee in He. simplify_eq.
  unfold date_le, date_lt. congruence.
Qed.

Lemma delete_leave_request_change leave_id db :
  (request (leaves.delete_leave_request leave_id) db).2 = db
  ∨ ∃ k row',
      leave_change db k row'
      ∧ (request (leaves.delete_leave_request leave_id) db).2
        = with_leave_requests db (<[k := row']> (leave_requests db)).
Proof.
  destruct (leave_requests db !! leave_id) as [row |] eqn:Hrow.
  - destruct (status_pending_or (LeaveRequestModel.status row)) as [Hst | Hst].
    + right. rewrite (cancel_pending_run _ _ _ Hrow Hst).
      eexists _, _. split; [| done]. by constructor.
    + left. by rewrite delete_leave_request_run, Hrow, Hst.
  - left. by rewrite delete_leave_request_run, Hrow.
Qed.

Lemma approve_leave_request_change leave_id approval db :
  (request (leaves.approve_leave_request leave_id approval) db).2 = db
  ∨ ∃ k row',
      leave_change db k row'
      ∧ (request (leaves.approve_leave_request leave_id approval) db).2
        = with_leave_requests db (<[k := row']> (leave_requests db)).
Proof.
  destruct (leave_requests db !! leave_id) as [row |] eqn:Hrow.
  - destruct (status_pending_or (LeaveRequestModel.status row)) as [Hst | Hst].
    + destruct (employees db !! schemas.LeaveApproval.approved_by approval)
        as [a |] eqn:Ha.
      * right. rewrite (approve_pending_run _ _ _ _ _ Hrow Hst Ha).
        eexists _, _. split; [| done]. constructor; by eauto.
      * left. by rewrite approve_leave_request_run, Hrow, Hst, Ha.
    + left. by rewrite approve_leave_request_run, Hrow, Hst.
  - left. by rewrite approve_leave_request_run, Hrow.
Qed.

Lemma create_leave_request_effect today nextval leave_request db :
  (request (leaves.create_leave_request today nextval leave_request) db).2 = db
  ∨ (leave_requests db !! nextval = None
     ∧ (∀ k row, leave_requests db !! k = Some row →
                 ¬ double_booked row (created_row today leave_request))
     ∧ (request (leaves.create_leave_request today nextval leave_request) db).2
       = with_leave_requests db
           (<[nextval := created_row today leave_request]> (leave_requests db))).
Proof.
  rewrite create_leave_request_run.
  destruct (employees db !! _) as [e |] eqn:He; [| by left].
  destruct (date_ltb _ _) eqn:Hlt; [by left |].
  destruct (List.find _ _) as [[k x] |] eqn:Hfind; [by left |].
  destruct (leave_requests db !! nextval) as [used |] eqn:Hkey; [by left |].
  right. split; [done |]. split; [| done].
  intros k row Hk Hdb. apply double_booked_created in Hdb.
  rewrite find_row_None in Hfind. specialize (Hfind k row Hk). congruence.
Qed.

Lemma delete_leave_request_effect leave_id db :
  (request (leaves.delete_leave_request leave_id) db).2 = db
  ∨ ∃ row,
      leave_requests db !! leave_id = Some row
      ∧ LeaveRequestModel.status row = PENDING
      ∧ (request (leaves.delete_leave_request leave_id) db).2
        = with_leave_requests db
            (<[leave_id := with_status CANCELLED row]> (leave_requests db)).
Proof.
  destruct (leave_requests db !! leave_id) as [row |] eqn:Hrow.
  - destruct (status_pending_or (LeaveRequestModel.status row)) as [Hst | Hst].
    + right. exists row. by rewrite (cancel_pending_run _ _ _ Hrow Hst).
    + left. by rewrite delete_leave_request_run, Hrow, Hst.
  - left. by rewrite delete_leave_request_run, Hrow.
Qed.

Lemma approve_leave_request_effect leave_id approval db :
  (request (leaves.approve_leave_request leave_id approval) db).2 = db
  ∨ ∃ row,
      leave_requests db !! leave_id = Some row
      ∧ LeaveRequestModel.status row = PENDING
      ∧ (request (leaves.approve_leave_request leave_id approval) db).2
        = with_leave_requests db
            (<[leave_id := with_decision (schemas.LeaveApproval.approved approval)
                             (schemas.LeaveApproval.approved_by approval) row]>
               (leave_requests db)).
Proof.
  destruct (leave_requests db !! leave_id) as [row |] eqn:Hrow.
  - destruct (status_pending_or (LeaveRequestModel.status row)) as [Hst | Hst].
    + destruct (employees db !! schemas.LeaveApproval.approved_by approval)
        as [a |] eqn:Ha.
      * right. exists row. by rewrite (approve_pending_run _ _ _ _ _ Hrow Hst Ha).
      * left. by rewrite approve_leave_request_run, Hrow, Hst, Ha.
    + left. by rewrite approve_leave_request_run, Hrow, Hst.
  - left. by rewrite approve_leave_request_run, Hrow.
Qed.

(** *** Invariants of the leave ledger *)

Lemma lookup_with_leave_requests db k row' j :
  leave_requests (with_leave_requests db (<[k := row']> (leave_requests db))) !! j
  = if decide (k = j) then Some row' else leave_requests db !! j.
Proof. cbn [with_leave_requests leave_requests]. apply lookup_insert. Qed.

Lemma proper_ranges_change db k row' :
  proper_ranges db → leave_change db k row' →
  proper_ranges (with_leave_requests db (<[k := row']> (leave_requests db))).
Proof.
  intros Hinv Hch j row. rewrite lookup_with_leave_requests.
  case_decide as Hj; [| by apply Hinv]. intros [= <-].
  destruct Hch as [today nextval lr _ _ Hle _ | id upd row row' _ _ _ Hle
                  | id row Hrow _ | id row a b Hrow _ _]; try done.
  - exact (Hinv id row Hrow).
  - exact (Hinv id row Hrow).
Qed.

Lemma decided_by_approver_change db k row' :
  decided_by_approver db → leave_change db k row' →
  decided_by_approver (with_leave_requests db (<[k := row']> (leave_requests db))).
Proof.
  intros Hinv Hch j row. rewrite lookup_with_leave_requests.
  case_decide as Hj; [| by apply Hinv]. intros [= <-].
  destruct Hch as [today nextval lr _ _ _ _ | id upd row row' Hrow Hst Hrow' _
                  | id row Hrow Hst | id row a b Hrow _ _].
  - cbn. split; [by intros [? ?] | by intros [? | ?]].
  - apply items_assigns in Hrow' as (_ & _ & _ & _ & _ & -> & -> & _).
    by apply (Hinv id).
  - cbn. specialize (Hinv id row Hrow). rewrite Hst in Hinv.
    split; [| by intros [? | ?]]. intros H. apply Hinv in H as [? | ?]; done.
  - cbn. split; [| by eexists]. intros _. destruct a; auto.
Qed.

Lemma leave_change_keeps db k row' j row :
  leave_change db k row' →
  leave_requests db !! j = Some row →
  ∃ row'',
    leave_requests (with_leave_requests db (<[k := row']> (leave_requests db))) !! j
    = Some row''
    ∧ LeaveRequestModel.employee_id row'' = LeaveRequestModel.employee_id row
    ∧ LeaveRequestModel.created_at row'' = LeaveRequestModel.created_at row.
Proof.
  intros Hch Hj. rewrite lookup_with_leave_requests.
  case_decide as Hk; [subst j | by exists row]. exists row'. split; [done |].
  destruct Hch as [today nextval lr Hkey _ _ _ | id upd row0 row' Hrow Hst Hrow' _
                  | id row0 Hrow Hst | id row0 a b Hrow _ _].
  - by rewrite Hkey in Hj.
  - apply items_assigns in Hrow' as (_ & _ & _ & _ & -> & _ & _ & ->).
    by simplify_eq.
  - by simplify_eq.
  - by simplify_eq.
Qed.

Lemma references_resolve_change db k row' :
  references_resolve db → leave_change db k row' →
  references_resolve (with_leave_requests db (<[k := row']> (leave_requests db))).
Proof.
  intros (Hdept & Hman & Hemp & Happ) Hch.
  split; [exact Hdept |]. split; [exact Hman |].
  assert (is_Some (employees db !! LeaveRequestModel.employee_id row')
          ∧ ∀ a, LeaveRequestModel.approved_by row' = Some a →
                 is_Some (employees db !! a)) as [He Ha].
  { destruct Hch as [today nextval lr _ He _ _ | id upd row row' Hrow Hst Hrow' _
                    | id row Hrow Hst | id row a b Hrow _ Hb].
    - split; [done | by intros a].
    - apply items_assigns in Hrow' as (_ & _ & _ & _ & -> & _ & -> & _).
      split; [by apply (Hemp id) | intros a; by apply (Happ id)].
    - split; [exact (Hemp id row Hrow) | intros a; exact (Happ id row a Hrow)].
    - split; [exact (Hemp id row Hrow) |]. cbn. by intros ? [= <-]. }
  split; intros j l; rewrite lookup_with_leave_requests;
    (case_decide as Hj; [intros; simplify_eq; eauto |]).
  - apply Hemp.
  - apply Happ.
Qed.

(** X1. Every stored request keeps an end date that is not before its start
    date, whatever create, update, cancel or approve is called with. *)
Theorem leave_handlers_keep_proper_ranges
    (db : Database) (today : date) (nextval : Z)
    (leave_request : schemas.LeaveRequestCreate.t)
    (leave_id : Z) (leave_update : schemas.LeaveRequestUpdate.t)
    (approval : schemas.LeaveApproval.t) :
  proper_ranges db →
  proper_ranges (request (leaves.create_leave_request today nextval leave_request) db).2
  ∧ proper_ranges (request (leaves.update_leave_request leave_id leave_update) db).2
  ∧ proper_ranges (request (leaves.delete_leave_request leave_id) db).2
  ∧ proper_ranges (request (leaves.approve_leave_request leave_id approval) db).2.
Proof.
  intros Hinv. split; [| split; [| split]].
  - destruct (create_leave_request_change today nextval leave_request db)
      as [-> | (k & row' & Hch & ->)]; [done | by apply proper_ranges_change].
  - destruct (update_leave_request_change leave_id leave_update db)
      as [-> | (k & row' & Hch & ->)]; [done | by apply proper_ranges_change].
  - destruct (delete_leave_request_change leave_id db)
      as [-> | (k & row' & Hch & ->)]; [done | by apply proper_ranges_change].
  - destruct (approve_leave_request_change leave_id approval db)
      as [-> | (k & row' & Hch & ->)]; [done | by apply proper_ranges_change].
Qed.

(** Reads the rows of a table that is written out: [H] is a lookup in a
    table built from insertions into a singleton. *)
Ltac table_rows H :=
  repeat (apply lookup_insert_Some in H as [[<- <-] | [_ H]]);
  try (apply lookup_singleton_Some in H as [<- <-]);
  try (by rewrite lookup_empty in H).

Lemma leave_handlers_keep_proper_ranges_witness :
  proper_ranges
    (request (leaves.create_leave_request (jan 2) 4
                (schemas.LeaveRequestCreate.Build 3 schemas.SICK (jan 10) (jan 12) "Flu"))
             sample_db).2
  ∧ proper_ranges
      (request (leaves.update_leave_request 1
                  (schemas.LeaveRequestUpdate.Build schemas.Unset schemas.Unset
                     (schemas.SetTo (Some (jan 3))) schemas.Unset))
               sample_db).2.
Proof.
  pose proof (leave_handlers_keep_proper_ranges sample_db (jan 2) 4
                (schemas.LeaveRequestCreate.Build 3 schemas.SICK (jan 10) (jan 12) "Flu")
                1 (schemas.LeaveRequestUpdate.Build schemas.Unset schemas.Unset
                     (schemas.SetTo (Some (jan 3))) schemas.Unset)
                (schemas.LeaveApproval.Build true 1 None)) as H.
  destruct H as (Hcreate & Hupdate & _ & _).
  - intros k row H. cbn in H. table_rows H; unfold date_le, date_lt; vm_compute;
      discriminate.
  - split; assumption.
Defined.

(** X2. A request has an approver exactly when it is approved or rejected;
    create, update, cancel and approve keep it so. *)
Theorem leave_handlers_keep_decided_by_approver
    (db : Database) (today : date) (nextval : Z)
    (leave_request : schemas.LeaveRequestCreate.t)
    (leave_id : Z) (leave_update : schemas.LeaveRequestUpdate.t)
    (approval : schemas.LeaveApproval.t) :
  decided_by_approver db →
  decided_by_approver (request (leaves.create_leave_request today nextval leave_request) db).2
  ∧ decided_by_approver
      (request (leaves.update_leave_request leave_id leave_update) db).2
  ∧ decided_by_approver (request (leaves.delete_leave_request leave_id) db).2
  ∧ decided_by_approver (request (leaves.approve_leave_request leave_id approval) db).2.
Proof.
  intros Hinv. split; [| split; [| split]].
  - destruct (create_leave_request_change today nextval leave_request db)
      as [-> | (k & row' & Hch & ->)]; [done | by apply decided_by_approver_change].
  - destruct (update_leave_request_change leave_id leave_update db)
      as [-> | (k & row' & Hch & ->)]; [done | by apply decided_by_approver_change].
  - destruct (delete_leave_request_change leave_id db)
      as [-> | (k & row' & Hch & ->)]; [done | by apply decided_by_approver_change].
  - destruct (approve_leave_request_change leave_id approval db)
      as [-> | (k & row' & Hch & ->)]; [done | by apply decided_by_approver_change].
Qed.

Lemma leave_handlers_keep_decided_by_approver_witness :
  decided_by_approver (request (leaves.delete_leave_request 1) sample_db).2
  ∧ decided_by_approver
      (request (leaves.approve_leave_request 1 (schemas.LeaveApproval.Build false 2 None))
               sample_db).2.
Proof.
  pose proof (leave_handlers_keep_decided_by_approver sample_db (jan 2) 4
                (schemas.LeaveRequestCreate.Build 3 schemas.SICK (jan 10) (jan 12) "Flu")
                1 (schemas.LeaveRequestUpdate.Build schemas.Unset schemas.Unset
                     schemas.Unset schemas.Unset)
                (schemas.LeaveApproval.Build false 2 None)) as H.
  destruct H as (_ & _ & Hcancel & Happrove).
  - intros k row H. cbn in H. table_rows H; cbn.
    + split; [by intros [? ?] | by intros [? | ?]].
    + split; [by left | by eexists].
    + split; [by right | by eexists].
  - split; assumption.
Defined.

Lemma ledger_extends_refl db : ledger_extends db db.
Proof. repeat split. intros k row Hk. by exists row. Qed.

Lemma ledger_extends_change db k row' :
  leave_change db k row' →
  ledger_extends db (with_leave_requests db (<[k := row']> (leave_requests db))).
Proof.
  intros Hch. repeat split. intros j row Hj. by apply leave_change_keeps.
Qed.

(** X3. Create, update, cancel and approve never touch the departments or
    the employees, never remove a leave request, and never change the
    requester or the creation date of a stored request. *)
Theorem leave_handlers_extend_ledger
    (db : Database) (today : date) (nextval : Z)
    (leave_request : schemas.LeaveRequestCreate.t)
    (leave_id : Z) (leave_update : schemas.LeaveRequestUpdate.t)
    (approval : schemas.LeaveApproval.t) :
  ledger_extends db (request (leaves.create_leave_request today nextval leave_request) db).2
  ∧ ledger_extends db (request (leaves.update_leave_request leave_id leave_update) db).2
  ∧ ledger_extends db (request (leaves.delete_leave_request leave_id) db).2
  ∧ ledger_extends db (request (leaves.approve_leave_request leave_id approval) db).2.
Proof.
  split; [| split; [| split]].
  - destruct (create_leave_request_change today nextval leave_request db)
      as [-> | (k & row' & Hch & ->)];
      [apply ledger_extends_refl | by apply ledger_extends_change].
  - destruct (update_leave_request_change leave_id leave_update db)
      as [-> | (k & row' & Hch & ->)];
      [apply ledger_extends_refl | by apply ledger_extends_change].
  - destruct (delete_leave_request_change leave_id db)
      as [-> | (k & row' & Hch & ->)];
      [apply ledger_extends_refl | by apply ledger_extends_change].
  - destruct (approve_leave_request_change leave_id approval db)
      as [-> | (k & row' & Hch & ->)];
      [apply ledger_extends_refl | by apply ledger_extends_change].
Qed.

Lemma double_booked_sym r1 r2 : double_booked r1 r2 → double_booked r2 r1.
Proof.
  unfold double_booked, overlap. intros (He & H1 & H2 & Ho).
  repeat split; try done. tauto.
Qed.

Lemma no_double_booking_insert db k row' :
  (∀ j r, j ≠ k → leave_requests db !! j = Some r → ¬ double_booked r row') →
  no_double_booking db →
  no_double_booking (with_leave_requests db (<[k := row']> (leave_requests db))).
Proof.
  intros Hnew Hinv k1 k2 r1 r2 Hne. rewrite !lookup_with_leave_requests.
  repeat case_decide; simplify_eq; intros H1 H2.
  - simplify_eq. intros Hdb%double_booked_sym. by apply (Hnew k2 r2).
  - simplify_eq. by apply (Hnew k1 r1).
  - by apply (Hinv k1 k2).
Qed.

(** X4. When no employee has two overlapping pending or approved requests,
    none has after a create, a cancel or an approve. *)
Theorem create_cancel_approve_keep_no_double_booking
    (db : Database) (today : date) (nextval : Z)
    (leave_request : schemas.LeaveRequestCreate.t)
    (leave_id : Z) (approval : schemas.LeaveApproval.t) :
  no_double_booking db →
  no_double_booking (request (leaves.create_leave_request today nextval leave_request) db).2
  ∧ no_double_booking (request (leaves.delete_leave_request leave_id) db).2
  ∧ no_double_booking (request (leaves.approve_leave_request leave_id approval) db).2.
Proof.
  intros Hinv. split; [| split].
  - destruct (create_leave_request_effect today nextval leave_request db)
      as [-> | (_ & Hnew & ->)]; [done |].
    apply no_double_booking_insert; [| done]. intros j r _. apply Hnew.
  - destruct (delete_leave_request_effect leave_id db)
      as [-> | (row & Hrow & Hst & ->)]; [done |].
    apply no_double_booking_insert; [| done].
    intros j r _ _ (_ & _ & [Ha | Ha] & _); discriminate Ha.
  - destruct (approve_leave_request_effect leave_id approval db)
      as [-> | (row & Hrow & Hst & ->)]; [done |].
    apply no_double_booking_insert; [| done].
    intros j r Hj Hr (He & Hr_active & _ & Ho).
    apply (Hinv j leave_id r row Hj Hr Hrow).
    repeat split; try done. left. done.
Qed.

Lemma create_cancel_approve_keep_no_double_booking_witness :
  no_double_booking
    (request (leaves.create_leave_request (jan 2) 4
                (schemas.LeaveRequestCreate.Build 3 schemas.SICK (jan 10) (jan 12) "Flu"))
             sample_db).2
  ∧ no_double_booking
      (request (leaves.approve_leave_request 1 (schemas.LeaveApproval.Build true 2 None))
               sample_db).2.
Proof.
  pose proof (create_cancel_approve_keep_no_double_booking sample_db (jan 2) 4
                (schemas.LeaveRequestCreate.Build 3 schemas.SICK (jan 10) (jan 12) "Flu")
                1 (schemas.LeaveApproval.Build true 2 None)) as H.
  destruct H as (Hcreate & _ & Happrove).
  - intros k1 k2 r1 r2 Hne H1 H2 (_ & Ha1 & Ha2 & Ho).
    cbn in H1, H2. unfold overlap, date_lt in Ho.
    table_rows H1; table_rows H2; try done;
      try (destruct Ha1 as [Ha1 | Ha1]; discriminate Ha1);
      try (destruct Ha2 as [Ha2 | Ha2]; discriminate Ha2);
      apply Ho; vm_compute; auto.
  - split; assumption.
Defined.

(** *** References between the tables *)

Lemma references_resolve_delete_department db department_id :
  references_resolve db →
  references_resolve (request (departments.delete_department department_id) db).2.
Proof.
  intros (Hdept & Hman & Hemp & Happ). rewrite delete_department_run.
  destruct (departments db !! department_id) as [d |] eqn:Hd; [| done].
  destruct (no_row _ _) eqn:Hno; [| done].
  rewrite no_row_true in Hno.
  split; [| split; [| split]]; cbn [snd departments employees leave_requests].
  - intros k e Hk. rewrite lookup_delete_ne; [by apply (Hdept k) |].
    intros Heq. specialize (Hno k e Hk). apply not_true_iff_false in Hno.
    by apply Hno, member_of_true.
  - intros k x m [_ Hk]%lookup_delete_Some. by apply (Hman k x).
  - done.
  - done.
Qed.

Lemma references_resolve_delete_employee db employee_id :
  references_resolve db →
  references_resolve (request (employees.delete_employee employee_id) db).2.
Proof.
  intros (Hdept & Hman & Hemp & Happ). rewrite delete_employee_run.
  destruct (employees db !! employee_id) as [e |] eqn:He; [| done].
  destruct (_ && _) eqn:Hchk; [| done].
  apply andb_true_iff in Hchk as [Hd Hl]. rewrite no_row_true in Hd. rewrite no_row_true in Hl.
  split; [| split; [| split]]; cbn [snd departments employees leave_requests].
  - intros k x [_ Hk]%lookup_delete_Some. by apply (Hdept k).
  - intros k x m Hk Hm. rewrite lookup_delete_ne; [by apply (Hman k x) |].
    intros Heq. subst m. specialize (Hd k x Hk). apply not_true_iff_false in Hd.
    by apply Hd, managed_by_true.
  - intros k l Hk. rewrite lookup_delete_ne; [by apply (Hemp k) |].
    intros Heq. specialize (Hl k l Hk). apply not_true_iff_false in Hl.
    apply Hl, references_employee_true. by left.
  - intros k l a Hk Ha. rewrite lookup_delete_ne; [by apply (Happ k l) |].
    intros Heq. subst a. specialize (Hl k l Hk). apply not_true_iff_false in Hl.
    apply Hl, references_employee_true. by right.
Qed.

(** X5. Referential integrity is an invariant of the six writing handlers.
    When every department of an employee, every manager of a department
    and every requester and approver of a leave request is stored, the
    same holds after create, update, cancel and approve of a leave request
    and after the deletion of a department or an employee, whatever the
    arguments and whether the call succeeds or fails. *)
Theorem handlers_keep_references
    (db : Database) (today : date) (nextval : Z)
    (leave_request : schemas.LeaveRequestCreate.t)
    (leave_id : Z) (leave_update : schemas.LeaveRequestUpdate.t)
    (approval : schemas.LeaveApproval.t) (department_id employee_id : Z) :
  references_resolve db →
  references_resolve (request (leaves.create_leave_request today nextval leave_request) db).2
  ∧ references_resolve (request (leaves.update_leave_request leave_id leave_update) db).2
  ∧ references_resolve (request (leaves.delete_leave_request leave_id) db).2
  ∧ references_resolve (request (leaves.approve_leave_request leave_id approval) db).2
  ∧ references_resolve (request (departments.delete_department department_id) db).2
  ∧ references_resolve (request (employees.delete_employee employee_id) db).2.
Proof.
  intros Hinv. split; [| split; [| split; [| split; [| split]]]].
  - destruct (create_leave_request_change today nextval leave_request db)
      as [-> | (k & row' & Hch & ->)]; [done | by apply references_resolve_change].
  - destruct (update_leave_request_change leave_id leave_update db)
      as [-> | (k & row' & Hch & ->)]; [done | by apply references_resolve_change].
  - destruct (delete_leave_request_change leave_id db)
      as [-> | (k & row' & Hch & ->)]; [done | by apply references_resolve_change].
  - destruct (approve_leave_request_change leave_id approval db)
      as [-> | (k & row' & Hch & ->)]; [done | by apply references_resolve_change].
  - by apply references_resolve_delete_department.
  - by apply references_resolve_delete_employee.
Qed.

Lemma handlers_keep_references_witness :
  references_resolve
    (request (leaves.approve_leave_request 1 (schemas.LeaveApproval.Build true 2 None))
             sample_db).2
  ∧ references_resolve (request (departments.delete_department 2) sample_db).2
  ∧ references_resolve (request (employees.delete_employee 2) sample_db).2.
Proof.
  pose proof (handlers_keep_references sample_db (jan 2) 4
                (schemas.LeaveRequestCreate.Build 3 schemas.SICK (jan 10) (jan 12) "Flu")
                1 (schemas.LeaveRequestUpdate.Build schemas.Unset schemas.Unset
                     schemas.Unset schemas.Unset)
                (schemas.LeaveApproval.Build true 2 None) 2 2) as H.
  destruct H as (_ & _ & _ & Happrove & Hdept & Hemp).
  - split; [| split; [| split]].
    + intros k e H. cbn in H. unfold sample_employees in H.
      table_rows H; by eexists.
    + intros k d m H Hm. cbn in H. unfold sample_departments in H.
      table_rows H; cbn in Hm; simplify_eq; by eexists.
    + intros k l H. cbn in H. table_rows H; by eexists.
    + intros k l a H Ha. cbn in H. table_rows H; cbn in Ha; simplify_eq; by eexists.
  - split; [| split]; assumption.
Defined.

(** *** The lifecycle of a request *)

(** X6. A decision is final. After a successful approve (with either flag)
    or a successful cancel of a request, every update, cancel and approve
    of that request fails with InvalidState. *)
Theorem decided_request_is_final
    (db : Database) (leave_id : Z) (approval : schemas.LeaveApproval.t) :
  (∀ r, (request (leaves.approve_leave_request leave_id approval) db).1 = Return r →
     let db' := (request (leaves.approve_leave_request leave_id approval) db).2 in
     (∀ leave_update,
        fails_with (request (leaves.update_leave_request leave_id leave_update) db').1
                   InvalidState)
     ∧ fails_with (request (leaves.delete_leave_request leave_id) db').1 InvalidState
     ∧ (∀ approval',
          fails_with (request (leaves.approve_leave_request leave_id approval') db').1
                     InvalidState))
  ∧ ((request (leaves.delete_leave_request leave_id) db).1 = Return tt →
     let db' := (request (leaves.delete_leave_request leave_id) db).2 in
     (∀ leave_update,
        fails_with (request (leaves.update_leave_request leave_id leave_update) db').1
                   InvalidState)
     ∧ fails_with (request (leaves.delete_leave_request leave_id) db').1 InvalidState
     ∧ (∀ approval',
          fails_with (request (leaves.approve_leave_request leave_id approval') db').1
                     InvalidState)).
Proof.
  assert (∀ db' row',
            leave_requests db' !! leave_id = Some row' →
            negb (LeaveStatusEnum_eqb (LeaveRequestModel.status row') PENDING) = true →
            (∀ leave_update,
               fails_with (request (leaves.update_leave_request leave_id leave_update) db').1
                          InvalidState)
            ∧ fails_with (request (leaves.delete_leave_request leave_id) db').1 InvalidState
            ∧ (∀ approval',
                 fails_with
                   (request (leaves.approve_leave_request leave_id approval') db').1
                   InvalidState)) as Hfinal.
  { intros db' row' Hrow Hst. repeat split; intros.
    - rewrite update_leave_request_run, Hrow, Hst. by eexists.
    - rewrite delete_leave_request_run, Hrow, Hst. by eexists.
    - rewrite approve_leave_request_run, Hrow, Hst. by eexists. }
  split.
  - intros r Hr db'. subst db'. revert Hr.
    destruct (leave_requests db !! leave_id) as [row |] eqn:Hrow;
      [| by rewrite approve_leave_request_run, Hrow].
    destruct (status_pending_or (LeaveRequestModel.status row)) as [Hst | Hst];
      [| by rewrite approve_leave_request_run, Hrow, Hst].
    destruct (employees db !! schemas.LeaveApproval.approved_by approval)
      as [a |] eqn:Ha; [| by rewrite approve_leave_request_run, Hrow, Hst, Ha].
    rewrite (approve_pending_run _ _ _ _ _ Hrow Hst Ha). intros _.
    eapply Hfinal.
    + cbn [snd with_leave_requests leave_requests]. apply lookup_insert_eq.
    + cbn. by destruct (schemas.LeaveApproval.approved approval).
  - intros Hr db'. subst db'. revert Hr.
    destruct (leave_requests db !! leave_id) as [row |] eqn:Hrow;
      [| by rewrite delete_leave_request_run, Hrow].
    destruct (status_pending_or (LeaveRequestModel.status row)) as [Hst | Hst];
      [| by rewrite delete_leave_request_run, Hrow, Hst].
    rewrite (cancel_pending_run _ _ _ Hrow Hst). intros _.
    eapply Hfinal.
    + cbn [snd with_leave_requests leave_requests]. apply lookup_insert_eq.
    + done.
Qed.

(** An instance on the sample data: request 1 is rejected by employee 2,
    and then cannot be cancelled. *)
Lemma decided_request_is_final_witness :
  let approval := schemas.LeaveApproval.Build false 2 None in
  fails_with
    (request (leaves.delete_leave_request 1)
             (request (leaves.approve_leave_request 1 approval) sample_db).2).1
    InvalidState.
Proof.
  intros approval.
  destruct (decided_request_is_final sample_db 1 approval) as [Happrove _].
  apply (Happrove (schemas.LeaveRequest.Build 1 3 schemas.VACATION (jan 1) (jan 5)
                     "Family trip" schemas.REJECTED (Some 2) (Date 2023 12 1))).
  reflexivity.
Defined.

(** *** Outcomes of the leave handlers *)

Lemma kind_of_raise {A} (e : Exception) (db : Database) (k : ErrorKind) :
  fails_with (A := A) (Raise e, db).1 k ↔ failure_kind e = Some k.
Proof.
  unfold fails_with. cbn [fst]. split.
  - by intros (e' & [= <-] & Hk).
  - intros Hk. by exists e.
Qed.

Lemma kind_of_return {A} (a : A) (db : Database) (k : ErrorKind) :
  ¬ fails_with (Return a, db).1 k.
Proof. by intros (e & He & _). Qed.

(** Closes the directions of an outcome equivalence that hold because a
    hypothesis is absurd. *)
Ltac absurd_outcome :=
  intros;
  repeat match goal with
         | H : _ ∧ _ |- _ => destruct H
         | H : is_Some None |- _ => destruct H as [? H]; discriminate H
         | H : fails_with (Return _, _).1 _ |- _ => by apply kind_of_return in H
         | H : (_, _).1 = _ |- _ => cbn [fst] in H
         | H : ¬ ?P, H' : ?P |- _ => destruct (H H')
         end;
  try done; try congruence; try (by eauto 8);
  repeat match goal with
         | H : ∃ _, _ |- _ => destruct H
         | H : _ ∧ _ |- _ => destruct H
         end;
  simplify_eq; try done; try congruence.


(** X8. Cancel fails with NotFound exactly when the request is not stored,
    with InvalidState exactly when it is stored and not pending, and
    succeeds exactly when it is stored and pending. *)
Theorem cancel_outcomes (leave_id : Z) (db : Database) :
  let r := (request (leaves.delete_leave_request leave_id) db).1 in
  (fails_with r NotFound ↔ leave_requests db !! leave_id = None)
  ∧ (fails_with r InvalidState
     ↔ ∃ row, leave_requests db !! leave_id = Some row
              ∧ LeaveRequestModel.status row ≠ PENDING)
  ∧ (r = Return tt
     ↔ ∃ row, leave_requests db !! leave_id = Some row
              ∧ LeaveRequestModel.status row = PENDING).
Proof.
  intros r. subst r.
  destruct (leave_requests db !! leave_id) as [row |] eqn:Hrow.
  - destruct (status_pending_or (LeaveRequestModel.status row)) as [Hst | Hst].
    + rewrite (cancel_pending_run _ _ _ Hrow Hst).
      split; [| split]; split; absurd_outcome.
    + assert (LeaveRequestModel.status row ≠ PENDING) as Hne
        by (intros Heq; by rewrite Heq in Hst).
      rewrite delete_leave_request_run, Hrow, Hst. rewrite !kind_of_raise.
      cbn [failure_kind kind_of_detail].
      split; [| split]; split; absurd_outcome.
  - rewrite delete_leave_request_run, Hrow. rewrite !kind_of_raise.
    cbn [failure_kind kind_of_detail].
    split; [| split]; split; absurd_outcome.
Qed.

(** X9. Approve fails with NotFound exactly when the request is not stored
    or it is pending and the approver is no employee; with InvalidState
    exactly when the request is stored and not pending, whoever the
    approver is; and it succeeds exactly when the request is pending and
    the approver is an employee. *)
Theorem approve_outcomes
    (leave_id : Z) (approval : schemas.LeaveApproval.t) (db : Database) :
  let r := (request (leaves.approve_leave_request leave_id approval) db).1 in
  let approver := employees db !! schemas.LeaveApproval.approved_by approval in
  (fails_with r NotFound
   ↔ leave_requests db !! leave_id = None
     ∨ ∃ row, leave_requests db !! leave_id = Some row
              ∧ LeaveRequestModel.status row = PENDING ∧ approver = None)
  ∧ (fails_with r InvalidState
     ↔ ∃ row, leave_requests db !! leave_id = Some row
              ∧ LeaveRequestModel.status row ≠ PENDING)
  ∧ ((∃ x, r = Return x)
     ↔ ∃ row, leave_requests db !! leave_id = Some row
              ∧ LeaveRequestModel.status row = PENDING ∧ is_Some approver).
Proof.
  intros r approver. subst r approver.
  destruct (leave_requests db !! leave_id) as [row |] eqn:Hrow.
  - destruct (status_pending_or (LeaveRequestModel.status row)) as [Hst | Hst].
    + destruct (employees db !! schemas.LeaveApproval.approved_by approval)
        as [a |] eqn:Ha.
      * assert (is_Some (Some a)) as Hx by by eexists.
        rewrite (approve_pending_run _ _ _ _ _ Hrow Hst Ha). cbn zeta.
        split; [| split]; split; absurd_outcome.
        by destruct H as [? | (? & ? & ? & ?)].
      * rewrite approve_leave_request_run, Hrow, Hst, Ha.
        cbn [negb LeaveStatusEnum_eqb]. rewrite !kind_of_raise.
        cbn [failure_kind kind_of_detail].
        split; [| split]; split; absurd_outcome.
    + assert (LeaveRequestModel.status row ≠ PENDING) as Hne
        by (intros Heq; by rewrite Heq in Hst).
      rewrite approve_leave_request_run, Hrow, Hst. rewrite !kind_of_raise.
      cbn [failure_kind kind_of_detail].
      split; [| split]; split; absurd_outcome.
      destruct H as [? | (? & ? & ? & ?)]; by simplify_eq.
  - rewrite approve_leave_request_run, Hrow. rewrite !kind_of_raise.
    cbn [failure_kind kind_of_detail].
    split; [| split]; split; absurd_outcome.
Qed.



(** *** Reading back what was written *)

(** X11. What create, update and approve return is what is stored: a get of
    the returned id on the tables after the call returns the same
    response. *)
Theorem response_is_stored
    (db : Database) (today : date) (nextval : Z)
    (leave_request : schemas.LeaveRequestCreate.t)
    (leave_id : Z) (leave_update : schemas.LeaveRequestUpdate.t)
    (approval : schemas.LeaveApproval.t) :
  (∀ r db', request (leaves.create_leave_request today nextval leave_request) db = (Return r, db') →
     request (leaves.get_leave_request (schemas.LeaveRequest.id r)) db' = (Return r, db'))
  ∧ (∀ r db',
       request (leaves.update_leave_request leave_id leave_update) db = (Return r, db') →
       schemas.LeaveRequest.id r = leave_id
       ∧ request (leaves.get_leave_request leave_id) db' = (Return r, db'))
  ∧ (∀ r db',
       request (leaves.approve_leave_request leave_id approval) db = (Return r, db') →
       schemas.LeaveRequest.id r = leave_id
       ∧ request (leaves.get_leave_request leave_id) db' = (Return r, db')).
Proof.
  split; [| split]; intros r db'.
  - rewrite create_leave_request_run.
    destruct (employees db !! _); [| done].
    destruct (date_ltb _ _); [done |].
    destruct (List.find _ _) as [[? ?] |]; [done |].
    destruct (leave_requests db !! nextval); [done |].
    cbn zeta. intros [= <- <-]. rewrite get_leave_request_run.
    cbn [schemas.LeaveRequest.id leaves.db_leave_to_schema with_leave_requests
         leave_requests].
    by rewrite lookup_insert_eq.
  - rewrite update_leave_request_run.
    destruct (leave_requests db !! leave_id); [| done].
    destruct (negb _); [done |].
    destruct (leaves.get _ _); [| done]. destruct (leaves.get _ _); [| done].
    destruct (date_ltb _ _); [done |].
    destruct (assigns _ _ _); [| done].
    intros [= <- <-]. split; [done |]. rewrite get_leave_request_run.
    cbn [with_leave_requests leave_requests]. by rewrite lookup_insert_eq.
  - rewrite approve_leave_request_run.
    destruct (leave_requests db !! leave_id); [| done].
    destruct (negb _); [done |].
    destruct (employees db !! _); [| done].
    destruct (assigns _ _ _); [| done].
    intros [= <- <-]. split; [done |]. rewrite get_leave_request_run.
    cbn [with_leave_requests leave_requests]. by rewrite lookup_insert_eq.
Qed.

Lemma response_is_stored_witness :
  let leave_request :=
    schemas.LeaveRequestCreate.Build 3 schemas.SICK (jan 10) (jan 12) "Flu" in
  let r := schemas.LeaveRequest.Build 4 3 schemas.SICK (jan 10) (jan 12) "Flu"
             schemas.PENDING None (jan 2) in
  request (leaves.get_leave_request 4)
          (request (leaves.create_leave_request (jan 2) 4 leave_request) sample_db).2
  = (Return r, (request (leaves.create_leave_request (jan 2) 4 leave_request) sample_db).2).
Proof.
  intros leave_request r.
  destruct (response_is_stored sample_db (jan 2) 4 leave_request 1
              (schemas.LeaveRequestUpdate.Build schemas.Unset schemas.Unset
                 schemas.Unset schemas.Unset)
              (schemas.LeaveApproval.Build true 1 None)) as (Hcreate & _ & _).
  apply (Hcreate r). reflexivity.
Defined.

(** X12. Cancel is a soft delete. On a pending request it succeeds, the
    request stays stored with status cancelled and every other column as
    it was, a get still returns it, and every other request is as
    before. *)
Theorem cancel_keeps_the_request
    (db : Database) (leave_id : Z) (row : LeaveRequestModel.t) :
  leave_requests db !! leave_id = Some row →
  LeaveRequestModel.status row = PENDING →
  let db' := (request (leaves.delete_leave_request leave_id) db).2 in
  (request (leaves.delete_leave_request leave_id) db).1 = Return tt
  ∧ leave_requests db' !! leave_id = Some (with_status CANCELLED row)
  ∧ request (leaves.get_leave_request leave_id) db'
    = (Return (leaves.db_leave_to_schema leave_id (with_status CANCELLED row)), db')
  ∧ (∀ k, k ≠ leave_id → leave_requests db' !! k = leave_requests db !! k)
  ∧ departments db' = departments db
  ∧ employees db' = employees db.
Proof.
  intros Hrow Hst db'. subst db'. rewrite (cancel_pending_run _ _ _ Hrow Hst).
  cbn [fst snd]. rewrite get_leave_request_run.
  cbn [with_leave_requests leave_requests departments employees].
  rewrite lookup_insert_eq. repeat split; try done.
  intros k Hk. by rewrite lookup_insert_ne.
Qed.

Lemma cancel_keeps_the_request_witness :
  let db' := (request (leaves.delete_leave_request 1) sample_db).2 in
  (request (leaves.delete_leave_request 1) sample_db).1 = Return tt
  ∧ leave_requests db' !! 1 = Some (leave 3 (jan 1) (jan 5) CANCELLED None)
  ∧ request (leaves.get_leave_request 1) db'
    = (Return (schemas.LeaveRequest.Build 1 3 schemas.VACATION (jan 1) (jan 5)
                 "Family trip" schemas.CANCELLED None (Date 2023 12 1)), db')
  ∧ (∀ k, k ≠ 1 → leave_requests db' !! k = leave_requests sample_db !! k)
  ∧ departments db' = departments sample_db
  ∧ employees db' = employees sample_db.
Proof.
  exact (cancel_keeps_the_request sample_db 1 (leave 3 (jan 1) (jan 5) PENDING None)
           eq_refl eq_refl).
Defined.

(** *** Which requests block a create *)


Lemma create_conflicts_when_booked today nextval leave_request db k row :
  is_Some (employees db !! schemas.LeaveRequestCreate.employee_id leave_request) →
  date_le (schemas.LeaveRequestCreate.start_date leave_request)
          (schemas.LeaveRequestCreate.end_date leave_request) →
  leave_requests db !! k = Some row →
  double_booked row (created_row today leave_request) →
  fails_with (request (leaves.create_leave_request today nextval leave_request) db).1 Conflict.
Proof.
  intros [e He] Hle Hk Hdb. rewrite create_leave_request_run, He.
  destruct (date_ltb _ _) eqn:Hlt; [by destruct Hle |].
  destruct (List.find _ _) as [[k' row'] |] eqn:Hfind; [by eexists |].
  exfalso. rewrite find_row_None in Hfind. specialize (Hfind k row Hk).
  apply double_booked_created in Hdb. congruence.
Qed.



(** X14. Create is not idempotent. After a successful create, every create
    for the same employee whose range (end date not before start date)
    overlaps the range just stored fails with Conflict; in particular the
    same body sent again. *)
Theorem create_again_conflicts
    (db : Database) (today today' : date) (nextval nextval' : Z)
    (leave_request leave_request' : schemas.LeaveRequestCreate.t)
    (r : schemas.LeaveRequest.t) :
  (request (leaves.create_leave_request today nextval leave_request) db).1 = Return r →
  let db' := (request (leaves.create_leave_request today nextval leave_request) db).2 in
  (schemas.LeaveRequestCreate.employee_id leave_request'
   = schemas.LeaveRequestCreate.employee_id leave_request →
   date_le (schemas.LeaveRequestCreate.start_date leave_request')
           (schemas.LeaveRequestCreate.end_date leave_request') →
   overlap (schemas.LeaveRequestCreate.start_date leave_request)
           (schemas.LeaveRequestCreate.end_date leave_request)
           (schemas.LeaveRequestCreate.start_date leave_request')
           (schemas.LeaveRequestCreate.end_date leave_request') →
   fails_with (request (leaves.create_leave_request today' nextval' leave_request') db').1 Conflict)
  ∧ fails_with (request (leaves.create_leave_request today' nextval' leave_request) db').1 Conflict.
Proof.
  intros Hr db'. subst db'. revert Hr. rewrite create_leave_request_run.
  destruct (employees db !! _) as [e |] eqn:He; [| done].
  destruct (date_ltb _ _) eqn:Hlt; [done |].
  destruct (List.find _ _) as [[k x] |] eqn:Hfind; [done |].
  destruct (leave_requests db !! nextval) as [used |] eqn:Hkey; [done |].
  cbn zeta. intros _. cbn [snd].
  assert (date_le (schemas.LeaveRequestCreate.start_date leave_request)
            (schemas.LeaveRequestCreate.end_date leave_request)) as Hle
    by (unfold date_le, date_lt; congruence).
  assert (∀ lr',
            schemas.LeaveRequestCreate.employee_id lr'
            = schemas.LeaveRequestCreate.employee_id leave_request →
            date_le (schemas.LeaveRequestCreate.start_date lr')
                    (schemas.LeaveRequestCreate.end_date lr') →
            overlap (schemas.LeaveRequestCreate.start_date leave_request)
                    (schemas.LeaveRequestCreate.end_date leave_request)
                    (schemas.LeaveRequestCreate.start_date lr')
                    (schemas.LeaveRequestCreate.end_date lr') →
            fails_with
              (request (leaves.create_leave_request today' nextval' lr')
                 (with_leave_requests db
                    (<[nextval := created_row today leave_request]>
                       (leave_requests db)))).1 Conflict) as Hgen.
  { intros lr' Hemp Hle' Ho.
    apply (create_conflicts_when_booked _ _ _ _ nextval
             (created_row today leave_request)).
    - cbn [with_leave_requests employees]. rewrite Hemp, He. by eexists.
    - done.
    - cbn [with_leave_requests leave_requests]. apply lookup_insert_eq.
    - repeat split; try done; by left. }
  split; [apply Hgen |]. apply Hgen; [done | done |].
  unfold overlap. intros [H | H]; by apply Hle.
Qed.

Lemma create_again_conflicts_witness :
  let leave_request :=
    schemas.LeaveRequestCreate.Build 3 schemas.SICK (jan 10) (jan 12) "Flu" in
  fails_with
    (request (leaves.create_leave_request (jan 3) 5 leave_request)
       (request (leaves.create_leave_request (jan 2) 4 leave_request) sample_db).2).1
    Conflict.
Proof.
  intros leave_request.
  apply (create_again_conflicts sample_db (jan 2) (jan 3) 4 5 leave_request leave_request
           (schemas.LeaveRequest.Build 4 3 schemas.SICK (jan 10) (jan 12) "Flu"
              schemas.PENDING None (jan 2))).
  reflexivity.
Defined.

(** *** Lists of rows *)

Lemma List_filter_sublist {A} (f : A → bool) (l : list A) :
  List.filter f l `sublist_of` l.
Proof.
  induction l as [| x l IH]; cbn; [constructor |].
  destruct (f x); by constructor.
Qed.

Lemma List_filter_filter {A} (f g : A → bool) (l : list A) :
  List.filter f (List.filter g l) = List.filter (λ x, g x && f x) l.
Proof.
  induction l as [| x l IH]; cbn; [done |].
  destruct (g x); cbn; [destruct (f x) |]; by rewrite IH.
Qed.

Lemma List_filter_Permutation {A} (f : A → bool) (l l' : list A) :
  l ≡ₚ l' → List.filter f l ≡ₚ List.filter f l'.
Proof.
  induction 1 as [| x l l' _ IH | x y l | l l' l'' _ IH _ IH']; cbn.
  - done.
  - destruct (f x); by rewrite IH.
  - destruct (f x), (f y); try done. apply perm_swap.
  - by rewrite IH.
Qed.



Lemma offset_limit_all {A} (limit : nat) (l : list A) :
  (length l ≤ limit)%nat → offset_limit 0 limit l = l.
Proof. intros H. unfold offset_limit. rewrite drop_0. by apply take_ge. Qed.

Lemma sum_ones {A} (l : list A) :
  leaves.sum (map (λ _, 1) l) = Z.of_nat (length l).
Proof.
  unfold leaves.sum.
  assert (∀ acc, foldl Z.add acc (map (λ _ : A, 1) l) = acc + Z.of_nat (length l)) as H.
  { induction l as [| x l IH]; intros acc; cbn [map foldl length]; [lia |].
    rewrite IH. lia. }
  rewrite H. lia.
Qed.

Lemma sum_1_if_count {A} (p q : A → bool) (table : gmap Z A) :
  leaves.sum_1_if (λ kv : Z * A, q kv.2)
    (List.filter (λ kv : Z * A, p kv.2) (map_to_list table))
  = count_rows (λ x, p x && q x) table.
Proof. unfold leaves.sum_1_if, count_rows. by rewrite sum_ones, List_filter_filter. Qed.

Lemma count_rows_insert_fresh {A} (p : A → bool) (table : gmap Z A) k x :
  table !! k = None →
  count_rows p (<[k := x]> table) = count_rows p table + (if p x then 1 else 0).
Proof.
  intros Hk. unfold count_rows.
  rewrite (Permutation_length
             (List_filter_Permutation _ _ _ (map_to_list_insert table k x Hk))).
  cbn [List.filter snd]. destruct (p x); cbn [length]; lia.
Qed.

Lemma count_rows_insert {A} (p : A → bool) (table : gmap Z A) k x x' :
  table !! k = Some x →
  count_rows p (<[k := x']> table)
  = count_rows p table - (if p x then 1 else 0) + (if p x' then 1 else 0).
Proof.
  intros Hk. rewrite <- (insert_delete_eq table).
  rewrite count_rows_insert_fresh by apply lookup_delete_eq.
  unfold count_rows at 2.
  rewrite <- (Permutation_length
                (List_filter_Permutation _ _ _ (map_to_list_delete table k x Hk))).
  cbn [List.filter snd]. unfold count_rows. destruct (p x); cbn [length]; lia.
Qed.

Lemma count_rows_by_status (e : Z) (table : gmap Z LeaveRequestModel.t) :
  count_rows (has_status e PENDING) table + count_rows (has_status e APPROVED) table
  + count_rows (has_status e REJECTED) table + count_rows (has_status e CANCELLED) table
  = count_rows (of_employee e) table.
Proof.
  unfold count_rows. induction (map_to_list table) as [| [k row] l IH]; [done |].
  cbn [List.filter snd]. unfold has_status, of_employee in *.
  destruct (LeaveRequestModel.employee_id row =? e); cbn [andb]; [| lia].
  destruct (LeaveRequestModel.status row); cbn [LeaveStatusEnum_eqb length]; lia.
Qed.

Lemma count_rows_by_type (e : Z) (table : gmap Z LeaveRequestModel.t) :
  count_rows (has_type e SICK) table + count_rows (has_type e VACATION) table
  + count_rows (has_type e PERSONAL) table + count_rows (has_type e UNPAID) table
  + count_rows (has_type e MATERNITY) table + count_rows (has_type e PATERNITY) table
  = count_rows (of_employee e) table.
Proof.
  unfold count_rows. induction (map_to_list table) as [| [k row] l IH]; [done |].
  cbn [List.filter snd]. unfold has_type, of_employee in *.
  destruct (LeaveRequestModel.employee_id row =? e); cbn [andb]; [| lia].
  destruct (LeaveRequestModel.leave_type row); cbn [LeaveTypeEnum_eqb length]; lia.
Qed.

(** *** The leave summary *)

Lemma get_employee_leave_summary_run employee_id db :
  request (leaves.get_employee_leave_summary employee_id) db =
  match employees db !! employee_id with
  | None => (Raise (HTTPException HTTP_404_NOT_FOUND (EmployeeNotFound employee_id)), db)
  | Some _ =>
      let t := leave_requests db in
      (Return
         {| leaves.summary.employee_id := employee_id;
            leaves.summary.total_requests := count_rows (of_employee employee_id) t;
            leaves.summary.pending := count_rows (has_status employee_id PENDING) t;
            leaves.summary.approved := count_rows (has_status employee_id APPROVED) t;
            leaves.summary.rejected := count_rows (has_status employee_id REJECTED) t;
            leaves.summary.cancelled := count_rows (has_status employee_id CANCELLED) t;
            leaves.summary.by_type :=
              {| leaves.by_type.sick := count_rows (has_type employee_id SICK) t;
                 leaves.by_type.vacation := count_rows (has_type employee_id VACATION) t;
                 leaves.by_type.personal := count_rows (has_type employee_id PERSONAL) t;
                 leaves.by_type.unpaid := count_rows (has_type employee_id UNPAID) t;
                 leaves.by_type.maternity := count_rows (has_type employee_id MATERNITY) t;
                 leaves.by_type.paternity := count_rows (has_type employee_id PATERNITY) t
              |} |}, db)
  end.
Proof.
  unfold leaves.get_employee_leave_summary. run.
  destruct (employees db !! employee_id); [| done].
  unfold query_leave_requests_all. cbn [store]. cbn zeta.
  pose proof (λ st, sum_1_if_count (of_employee employee_id)
                      (λ r, LeaveStatusEnum_eqb (LeaveRequestModel.status r) st)
                      (leave_requests db)) as Hst.
  pose proof (λ t, sum_1_if_count (of_employee employee_id)
                     (λ r, LeaveTypeEnum_eqb (LeaveRequestModel.leave_type r) t)
                     (leave_requests db)) as Hty.
  unfold of_employee in Hst, Hty. cbn beta in Hst, Hty.
  by rewrite !Hst, !Hty.
Qed.

(** X15. The summary of an employee fails with NotFound exactly when the
    employee is not stored and never writes; when it returns, the four
    status counts add up to the total, and so do the six type counts, the
    total being the number of stored requests of the employee. *)
Theorem summary_counts_add_up (employee_id : Z) (db : Database) :
  let r := request (leaves.get_employee_leave_summary employee_id) db in
  (fails_with r.1 NotFound ↔ employees db !! employee_id = None)
  ∧ r.2 = db
  ∧ ∀ s, r.1 = Return s →
      leaves.summary.employee_id s = employee_id
      ∧ leaves.summary.total_requests s
        = count_rows (of_employee employee_id) (leave_requests db)
      ∧ leaves.summary.pending s + leaves.summary.approved s
        + leaves.summary.rejected s + leaves.summary.cancelled s
        = leaves.summary.total_requests s
      ∧ leaves.by_type.sick (leaves.summary.by_type s)
        + leaves.by_type.vacation (leaves.summary.by_type s)
        + leaves.by_type.personal (leaves.summary.by_type s)
        + leaves.by_type.unpaid (leaves.summary.by_type s)
        + leaves.by_type.maternity (leaves.summary.by_type s)
        + leaves.by_type.paternity (leaves.summary.by_type s)
        = leaves.summary.total_requests s.
Proof.
  intros r. subst r. rewrite get_employee_leave_summary_run.
  destruct (employees db !! employee_id) as [e |] eqn:He; cbn zeta.
  - split; [split; absurd_outcome |]. split; [done |].
    intros s [= <-]. cbn. split; [done |]. split; [done |].
    split; [apply count_rows_by_status | apply count_rows_by_type].
  - rewrite kind_of_raise. by repeat split.
Qed.

Lemma summary_counts_add_up_witness :
  ∃ s, (request (leaves.get_employee_leave_summary 3) sample_db).1 = Return s
       ∧ leaves.summary.total_requests s = 3
       ∧ leaves.summary.pending s + leaves.summary.approved s
         + leaves.summary.rejected s + leaves.summary.cancelled s = 3.
Proof.
  destruct (summary_counts_add_up 3 sample_db) as (_ & _ & H).
  eexists. split; [reflexivity |].
  destruct (H _ eq_refl) as (_ & Htotal & Hsum & _).
  split; [exact Htotal | exact Hsum].
Defined.

Lemma summary_of_stored employee_id db s :
  (request (leaves.get_employee_leave_summary employee_id) db).1 = Return s →
  s = {| leaves.summary.employee_id := employee_id;
         leaves.summary.total_requests :=
           count_rows (of_employee employee_id) (leave_requests db);
         leaves.summary.pending :=
           count_rows (has_status employee_id PENDING) (leave_requests db);
         leaves.summary.approved :=
           count_rows (has_status employee_id APPROVED) (leave_requests db);
         leaves.summary.rejected :=
           count_rows (has_status employee_id REJECTED) (leave_requests db);
         leaves.summary.cancelled :=
           count_rows (has_status employee_id CANCELLED) (leave_requests db);
         leaves.summary.by_type :=
           {| leaves.by_type.sick :=
                count_rows (has_type employee_id SICK) (leave_requests db);
              leaves.by_type.vacation :=
                count_rows (has_type employee_id VACATION) (leave_requests db);
              leaves.by_type.personal :=
                count_rows (has_type employee_id PERSONAL) (leave_requests db);
              leaves.by_type.unpaid :=
                count_rows (has_type employee_id UNPAID) (leave_requests db);
              leaves.by_type.maternity :=
                count_rows (has_type employee_id MATERNITY) (leave_requests db);
              leaves.by_type.paternity :=
                count_rows (has_type employee_id PATERNITY) (leave_requests db) |} |}.
Proof.
  rewrite get_employee_leave_summary_run.
  destruct (employees db !! employee_id); [| done]. cbn zeta. by intros [= <-].
Qed.

(** Rewrites the counts of a summary after one row was written. *)
Ltac count_after Hrow :=
  cbn [with_leave_requests leave_requests];
  first [ rewrite !(count_rows_insert _ _ _ _ _ Hrow)
        | rewrite !(count_rows_insert_fresh _ _ _ _ Hrow) ];
  unfold has_status, has_type, of_employee;
  cbn [with_status with_decision created_row LeaveRequestModel.employee_id
       LeaveRequestModel.status LeaveRequestModel.leave_type].

(** X16. A cancel moves one request of the requester from pending to
    cancelled in the summary and changes no other count: the total and the
    counts by type stay, since the request is kept. *)
Theorem summary_after_cancel
    (db : Database) (leave_id : Z) (row : LeaveRequestModel.t)
    (s s' : leaves.summary.t) :
  leave_requests db !! leave_id = Some row →
  LeaveRequestModel.status row = PENDING →
  let e := LeaveRequestModel.employee_id row in
  (request (leaves.get_employee_leave_summary e) db).1 = Return s →
  (request (leaves.get_employee_leave_summary e)
           (request (leaves.delete_leave_request leave_id) db).2).1 = Return s' →
  leaves.summary.pending s' = leaves.summary.pending s - 1
  ∧ leaves.summary.cancelled s' = leaves.summary.cancelled s + 1
  ∧ leaves.summary.approved s' = leaves.summary.approved s
  ∧ leaves.summary.rejected s' = leaves.summary.rejected s
  ∧ leaves.summary.total_requests s' = leaves.summary.total_requests s
  ∧ leaves.summary.by_type s' = leaves.summary.by_type s.
Proof.
  intros Hrow Hst e Hs Hs'. subst e.
  rewrite (cancel_pending_run _ _ _ Hrow Hst) in Hs'. cbn [snd] in Hs'.
  apply summary_of_stored in Hs as ->. apply summary_of_stored in Hs' as ->.
  cbn [leaves.summary.pending leaves.summary.cancelled leaves.summary.approved
       leaves.summary.rejected leaves.summary.total_requests leaves.summary.by_type].
  count_after Hrow. rewrite Hst, Z.eqb_refl. cbn [andb LeaveStatusEnum_eqb].
  repeat split; try lia. f_equal; lia.
Qed.

Lemma summary_after_cancel_witness :
  ∃ s s',
    (request (leaves.get_employee_leave_summary 3) sample_db).1 = Return s
    ∧ (request (leaves.get_employee_leave_summary 3)
               (request (leaves.delete_leave_request 1) sample_db).2).1 = Return s'
    ∧ leaves.summary.pending s' = leaves.summary.pending s - 1
    ∧ leaves.summary.cancelled s' = leaves.summary.cancelled s + 1.
Proof.
  eexists _, _. split; [reflexivity |]. split; [reflexivity |].
  destruct (summary_after_cancel sample_db 1 (leave 3 (jan 1) (jan 5) PENDING None)
              _ _ eq_refl eq_refl eq_refl eq_refl) as (Hp & Hc & _).
  split; [exact Hp | exact Hc].
Defined.

(** X17. An approve moves one request of the requester from pending to
    approved, or to rejected when the flag is false, and changes no other
    count of the summary. *)
Theorem summary_after_approve
    (db : Database) (leave_id : Z) (row : LeaveRequestModel.t)
    (approval : schemas.LeaveApproval.t) (r : schemas.LeaveRequest.t)
    (s s' : leaves.summary.t) :
  leave_requests db !! leave_id = Some row →
  (request (leaves.approve_leave_request leave_id approval) db).1 = Return r →
  let e := LeaveRequestModel.employee_id row in
  let flag := schemas.LeaveApproval.approved approval in
  (request (leaves.get_employee_leave_summary e) db).1 = Return s →
  (request (leaves.get_employee_leave_summary e)
           (request (leaves.approve_leave_request leave_id approval) db).2).1
  = Return s' →
  leaves.summary.pending s' = leaves.summary.pending s - 1
  ∧ leaves.summary.approved s'
    = leaves.summary.approved s + (if flag then 1 else 0)
  ∧ leaves.summary.rejected s'
    = leaves.summary.rejected s + (if flag then 0 else 1)
  ∧ leaves.summary.cancelled s' = leaves.summary.cancelled s
  ∧ leaves.summary.total_requests s' = leaves.summary.total_requests s
  ∧ leaves.summary.by_type s' = leaves.summary.by_type s.
Proof.
  intros Hrow Hr e flag Hs Hs'. subst e flag. revert Hr Hs'.
  destruct (status_pending_or (LeaveRequestModel.status row)) as [Hst | Hst];
    [| by rewrite approve_leave_request_run, Hrow, Hst].
  destruct (employees db !! schemas.LeaveApproval.approved_by approval)
    as [a |] eqn:Ha; [| by rewrite approve_leave_request_run, Hrow, Hst, Ha].
  rewrite (approve_pending_run _ _ _ _ _ Hrow Hst Ha). cbn [snd]. intros _ Hs'.
  apply summary_of_stored in Hs as ->. apply summary_of_stored in Hs' as ->.
  cbn [leaves.summary.pending leaves.summary.cancelled leaves.summary.approved
       leaves.summary.rejected leaves.summary.total_requests leaves.summary.by_type].
  count_after Hrow. rewrite Hst, Z.eqb_refl.
  destruct (schemas.LeaveApproval.approved approval); cbn [andb LeaveStatusEnum_eqb];
    (repeat split; try lia; f_equal; lia).
Qed.

Lemma summary_after_approve_witness :
  ∃ s s',
    (request (leaves.get_employee_leave_summary 3) sample_db).1 = Return s
    ∧ (request (leaves.get_employee_leave_summary 3)
               (request (leaves.approve_leave_request 1
                           (schemas.LeaveApproval.Build true 2 None)) sample_db).2).1
      = Return s'
    ∧ leaves.summary.pending s' = leaves.summary.pending s - 1
    ∧ leaves.summary.approved s' = leaves.summary.approved s + 1.
Proof.
  eexists _, _. split; [reflexivity |]. split; [reflexivity |].
  destruct (summary_after_approve sample_db 1 (leave 3 (jan 1) (jan 5) PENDING None)
              (schemas.LeaveApproval.Build true 2 None) _ _ _
              eq_refl eq_refl eq_refl eq_refl) as (Hp & Ha & _).
  split; [exact Hp | exact Ha].
Defined.

(** X18. A successful create adds one pending request to the summary of the
    requester: total and pending grow by one, the other status counts
    stay; the summary of every other employee is unchanged. *)
Theorem summary_after_create
    (db : Database) (today : date) (nextval : Z)
    (leave_request : schemas.LeaveRequestCreate.t)
    (r : schemas.LeaveRequest.t) (e : Z) (s s' : leaves.summary.t) :
  (request (leaves.create_leave_request today nextval leave_request) db).1 = Return r →
  (request (leaves.get_employee_leave_summary e) db).1 = Return s →
  (request (leaves.get_employee_leave_summary e)
           (request (leaves.create_leave_request today nextval leave_request) db).2).1
  = Return s' →
  (e = schemas.LeaveRequestCreate.employee_id leave_request →
   leaves.summary.total_requests s' = leaves.summary.total_requests s + 1
   ∧ leaves.summary.pending s' = leaves.summary.pending s + 1
   ∧ leaves.summary.approved s' = leaves.summary.approved s
   ∧ leaves.summary.rejected s' = leaves.summary.rejected s
   ∧ leaves.summary.cancelled s' = leaves.summary.cancelled s)
  ∧ (e ≠ schemas.LeaveRequestCreate.employee_id leave_request → s' = s).
Proof.
  intros Hr Hs Hs'. revert Hr Hs'. rewrite create_leave_request_run.
  destruct (employees db !! _) as [x |]; [| done].
  destruct (date_ltb _ _); [done |].
  destruct (List.find _ _) as [[? ?] |]; [done |].
  destruct (leave_requests db !! nextval) as [used |] eqn:Hfresh; [done |].
  cbn zeta. cbn [snd]. intros _ Hs'.
  apply summary_of_stored in Hs as ->. apply summary_of_stored in Hs' as ->.
  cbn [leaves.summary.pending leaves.summary.cancelled leaves.summary.approved
       leaves.summary.rejected leaves.summary.total_requests leaves.summary.by_type].
  count_after Hfresh. split.
  - intros ->. rewrite Z.eqb_refl. cbn [andb LeaveStatusEnum_eqb]. repeat split; lia.
  - intros Hne. apply Z.eqb_neq in Hne. rewrite Z.eqb_sym in Hne. rewrite Hne.
    cbn [andb]. rewrite !Z.add_0_r. done.
Qed.

Lemma summary_after_create_witness :
  let leave_request :=
    schemas.LeaveRequestCreate.Build 3 schemas.SICK (jan 10) (jan 12) "Flu" in
  ∃ s s',
    (request (leaves.get_employee_leave_summary 3) sample_db).1 = Return s
    ∧ (request (leaves.get_employee_leave_summary 3)
               (request (leaves.create_leave_request (jan 2) 4 leave_request)
                        sample_db).2).1 = Return s'
    ∧ leaves.summary.total_requests s' = leaves.summary.total_requests s + 1
    ∧ leaves.summary.pending s' = leaves.summary.pending s + 1.
Proof.
  intros leave_request.
  eexists _, _. split; [reflexivity |]. split; [reflexivity |].
  destruct (summary_after_create sample_db (jan 2) 4 leave_request _ 3 _ _
              eq_refl eq_refl eq_refl) as [Hsame _].
  destruct (Hsame eq_refl) as (Ht & Hp & _).
  split; [exact Ht | exact Hp].
Defined.

(** *** Listing requests *)

Lemma LeaveStatusEnum_eqb_of a st :
  LeaveStatusEnum_eqb a (LeaveStatusEnum_of st) = true ↔ LeaveStatus_of a = st.
Proof. destruct a, st; cbn; split; (done || discriminate). Qed.

Lemma LeaveTypeEnum_eqb_of a t :
  LeaveTypeEnum_eqb a (LeaveTypeEnum_of t) = true ↔ LeaveType_of a = t.
Proof. destruct a, t; cbn; split; (done || discriminate). Qed.

Lemma leaves_list_filter_true employee_id status_filter leave_type row :
  leaves.list_filter employee_id status_filter leave_type row = true ↔
  (∀ e, employee_id = Some e → LeaveRequestModel.employee_id row = e)
  ∧ (∀ st, status_filter = Some st → LeaveStatus_of (LeaveRequestModel.status row) = st)
  ∧ (∀ t, leave_type = Some t → LeaveType_of (LeaveRequestModel.leave_type row) = t).
Proof.
  unfold leaves.list_filter. rewrite !andb_true_iff.
  destruct employee_id as [e |], status_filter as [st |], leave_type as [t |];
    rewrite ?Z.eqb_eq, ?LeaveStatusEnum_eqb_of, ?LeaveTypeEnum_eqb_of;
    split; intros H; repeat split; try done;
    try (intros ? [= <-]; tauto);
    try (destruct H as (H1 & H2 & H3); eauto).
Qed.



Lemma full_page_rows {A} (p : A → bool) (limit : nat) (table : gmap Z A) k x :
  (size table ≤ limit)%nat →
  table !! k = Some x → p x = true →
  (k, x) ∈ offset_limit 0 limit
             (List.filter (λ kv : Z * A, p kv.2) (map_to_list table)).
Proof.
  intros Hsize Hk Hp. rewrite offset_limit_all.
  - apply list_elem_of_In, filter_In. split; [| done].
    by apply list_elem_of_In, elem_of_map_to_list.
  - etrans; [| exact Hsize]. rewrite <- length_map_to_list.
    apply sublist_length, List_filter_sublist.
Qed.


(** X20. With no offset and a limit that is at least the number of stored
    requests, the list is complete: the response of every stored request
    that passes the given filters is in it. *)
Theorem get_leave_requests_complete
    (employee_id : option Z) (status_filter : option schemas.LeaveStatus)
    (leave_type : option schemas.LeaveType) (limit : nat) (db : Database)
    (k : Z) (row : LeaveRequestModel.t) :
  (size (leave_requests db) ≤ limit)%nat →
  leave_requests db !! k = Some row →
  (∀ e, employee_id = Some e → LeaveRequestModel.employee_id row = e) →
  (∀ st, status_filter = Some st → LeaveStatus_of (LeaveRequestModel.status row) = st) →
  (∀ t, leave_type = Some t → LeaveType_of (LeaveRequestModel.leave_type row) = t) →
  ∃ items,
    (request (leaves.get_leave_requests employee_id status_filter leave_type 0 limit)
             db).1 = Return items
    ∧ leaves.db_leave_to_schema k row ∈ items.
Proof.
  intros Hsize Hk He Hs Ht. eexists. rewrite get_leave_requests_run.
  split; [reflexivity |]. apply list_elem_of_fmap. exists (k, row). split; [done |].
  apply full_page_rows; try done. by apply leaves_list_filter_true.
Qed.

Lemma get_leave_requests_complete_witness :
  ∃ items,
    (request (leaves.get_leave_requests (Some 3) (Some schemas.APPROVED) None 0 100)
             sample_db).1 = Return items
    ∧ schemas.LeaveRequest.Build 2 3 schemas.VACATION (jan 20) (jan 25) "Family trip"
        schemas.APPROVED (Some 1) (Date 2023 12 1) ∈ items.
Proof.
  apply (get_leave_requests_complete (Some 3) (Some schemas.APPROVED) None 100 sample_db
           2 (leave 3 (jan 20) (jan 25) APPROVED (Some 1))).
  - vm_compute. lia.
  - reflexivity.
  - by intros e [= <-].
  - by intros st [= <-].
  - by intros t [= ].
Defined.

(** *** The employee directory and the department registry *)





(** A row that the schema refuses: the phone number of employee 4 has
    dashes, and a get of that employee raises [ValidationError]. *)
Example get_employee_refused :
  let row := EmployeeModel.Build "Ada" "Poe" "ada@example.com" "+1-555-0100" 1
               "Engineer" (Date 2020 1 15) 85000%float ACTIVE in
  let db := {| departments := sample_departments;
               employees := <[4 := row]> sample_employees;
               leave_requests := ∅ |} in
  request (employees.get_employee sample_validators 4) db = (Raise ValidationError, db)
  ∧ (request (employees.get_employees_by_department sample_validators 1) db).1
    = Raise ValidationError.
Proof. split; vm_compute; reflexivity. Qed.

(** X22. The employees of a department. The handler never writes. For a
    department that is not stored it fails with NotFound, also when
    employees carry that department id. For a stored department it returns
    exactly when every employee with that department id passes the
    response schema, and raises ValidationError otherwise; when it
    returns, an employee response is in the list exactly when it is the
    response of a stored employee with that department id. *)
Theorem get_employees_by_department_exact
    (v : pydantic.validators) (department_id : Z) (db : Database) :
  let r := request (employees.get_employees_by_department v department_id) db in
  let member k row :=
    employees db !! k = Some row ∧ EmployeeModel.department_id row = department_id in
  r.2 = db
  ∧ (fails_with r.1 NotFound ↔ departments db !! department_id = None)
  ∧ (is_Some (departments db !! department_id) →
     ((∃ items, r.1 = Return items) ↔ ∀ k row, member k row → presentable v k row)
     ∧ (r.1 = Raise ValidationError ↔ ∃ k row, member k row ∧ ¬ presentable v k row)
     ∧ ∀ items,
         r.1 = Return items →
         ∀ x, x ∈ items ↔
              ∃ k row, member k row
                       ∧ employees.db_employee_to_schema v k row = Return x).
Proof.
  intros r member. subst r member. rewrite get_employees_by_department_run.
  assert (∀ k row,
            (k, row) ∈ List.filter (λ kv, member_of department_id kv.2)
                         (map_to_list (employees db))
            ↔ employees db !! k = Some row
              ∧ EmployeeModel.department_id row = department_id) as Hrows.
  { intros k row. rewrite list_elem_of_In, filter_In, <- list_elem_of_In.
    by rewrite elem_of_map_to_list, member_of_true. }
  destruct (departments db !! department_id) as [d |] eqn:Hd.
  - cbn [fst snd]. split; [done |]. split.
    { split; [| done]. intros (e & He & Hk).
      apply responses_Raise_inv in He as (-> & _). discriminate Hk. }
    intros _. split; [| split].
    + rewrite <- responses_total. split.
      * intros Hall k row Hm. apply (Hall (k, row)). by apply Hrows.
      * intros Hall [k row] Hin. apply Hall. by apply Hrows.
    + rewrite responses_Raise. split.
      * intros ([k row] & Hin & Hno). exists k, row. split; [by apply Hrows | done].
      * intros (k & row & Hm & Hno). exists (k, row). split; [by apply Hrows | done].
    + intros items Hr x. rewrite (responses_elem _ _ _ x Hr). split.
      * intros ([k row] & Hin & Hx). exists k, row. split; [by apply Hrows | done].
      * intros (k & row & Hm & Hx). exists (k, row). split; [by apply Hrows | done].
  - rewrite kind_of_raise. split; [done |]. split; [done |]. by intros [? ?].
Qed.

(** An instance of X22: under the sample validators the three employees of
    department 1 pass the schema, and the response of employee 2 is in the
    list. *)
Lemma get_employees_by_department_exact_witness :
  ∃ items x,
    (request (employees.get_employees_by_department sample_validators 1) sample_db).1
    = Return items
    ∧ employees.db_employee_to_schema sample_validators 2
        (employee "Jane" "Roe" "jane@example.com" 1) = Return x
    ∧ x ∈ items.
Proof.
  destruct (get_employees_by_department_exact sample_validators 1 sample_db)
    as (_ & _ & H).
  destruct H as (Hreturns & _ & Hin); [by eexists |].
  destruct (proj2 Hreturns) as [items Hitems].
  { intros k row [Hk _]. unfold sample_db, sample_employees in Hk.
    cbn [employees] in Hk. table_rows Hk; eexists; reflexivity. }
  exists items. eexists. split; [exact Hitems |]. split; [reflexivity |].
  apply (Hin items Hitems).
  exists 2, (employee "Jane" "Roe" "jane@example.com" 1). by repeat split.
Defined.

(** X23. The employee count of a department response is the number of
    stored employees of the department, which is the length of the list of
    the department's employees whenever that list is returned; and the
    department can be deleted exactly when that count is zero. *)
Theorem employee_count_decides_delete
    (v : pydantic.validators) (department_id : Z) (d : DepartmentModel.t)
    (db : Database) :
  departments db !! department_id = Some d →
  ∃ x,
    request (departments.get_department department_id) db = (Return x, db)
    ∧ schemas.Department.id x = department_id
    ∧ schemas.Department.name x = DepartmentModel.name d
    ∧ schemas.Department.description x = DepartmentModel.description d
    ∧ schemas.Department.manager_id x = DepartmentModel.manager_id d
    ∧ schemas.Department.employee_count x
      = count_rows (member_of department_id) (employees db)
    ∧ (∀ items,
         (request (employees.get_employees_by_department v department_id) db).1
         = Return items →
         schemas.Department.employee_count x = Z.of_nat (length items))
    ∧ ((request (departments.delete_department department_id) db).1 = Return tt
       ↔ schemas.Department.employee_count x = 0).
Proof.
  intros Hd. rewrite get_department_run, get_employees_by_department_run,
    delete_department_run, Hd.
  eexists. split; [reflexivity |]. repeat split; try reflexivity.
  - cbn [schemas.Department.employee_count fst]. intros items Hr.
    apply responses_Return, Forall2_length in Hr. by rewrite <- Hr.
  - cbn [schemas.Department.employee_count].
    destruct (no_row _ _) eqn:Hno; [| done]. intros _.
    apply count_rows_zero in Hno. rewrite Z.gtb_ltb in Hno. apply Z.ltb_ge in Hno.
    unfold count_rows in *. lia.
  - cbn [schemas.Department.employee_count]. intros Hzero.
    destruct (no_row _ _) eqn:Hno; [done |]. exfalso.
    apply not_true_iff_false in Hno. apply Hno, count_rows_zero.
    rewrite Z.gtb_ltb. apply Z.ltb_ge. unfold count_rows in Hzero. lia.
Qed.

(** An instance of X23: department 1 has three employees, the list of its
    employees has three items, and the department cannot be deleted. *)
Lemma employee_count_decides_delete_witness :
  ∃ x items,
    request (departments.get_department 1) sample_db = (Return x, sample_db)
    ∧ schemas.Department.employee_count x = 3
    ∧ (request (employees.get_employees_by_department sample_validators 1) sample_db).1
      = Return items
    ∧ Z.of_nat (length items) = 3
    ∧ (request (departments.delete_department 1) sample_db).1 ≠ Return tt.
Proof.
  destruct (employee_count_decides_delete sample_validators 1
              (DepartmentModel.Build "Engineering" "Software" (Some 1))
              sample_db eq_refl)
    as (x & Hx & _ & _ & _ & _ & Hcount & Hlist & Hdelete).
  assert (schemas.Department.employee_count x = 3) as H3.
  { rewrite Hcount. vm_compute. reflexivity. }
  destruct (request (employees.get_employees_by_department sample_validators 1)
              sample_db).1 as [items | e] eqn:Hitems;
    [| vm_compute in Hitems; discriminate Hitems].
  exists x, items. split; [exact Hx |]. split; [exact H3 |]. split; [reflexivity |].
  split.
  - rewrite <- (Hlist items eq_refl). exact H3.
  - intros Hdel. apply Hdelete in Hdel. rewrite H3 in Hdel. discriminate Hdel.
Defined.



(** *** After a deletion *)

(** X25. A deleted employee is gone for every handler. After a successful
    delete of an employee, get and summary of that id fail with NotFound,
    as do a second delete, every create of a leave request for that
    employee and every approve of a pending request by that employee. *)
Theorem deleted_employee_is_gone
    (v : pydantic.validators) (employee_id : Z) (db : Database) :
  (request (employees.delete_employee employee_id) db).1 = Return tt →
  let db' := (request (employees.delete_employee employee_id) db).2 in
  fails_with (request (employees.get_employee v employee_id) db').1 NotFound
  ∧ fails_with (request (employees.delete_employee employee_id) db').1 NotFound
  ∧ fails_with (request (leaves.get_employee_leave_summary employee_id) db').1 NotFound
  ∧ (∀ today nextval leave_request,
       schemas.LeaveRequestCreate.employee_id leave_request = employee_id →
       fails_with (request (leaves.create_leave_request today nextval leave_request) db').1
                  NotFound)
  ∧ (∀ leave_id row approval,
       leave_requests db' !! leave_id = Some row →
       LeaveRequestModel.status row = PENDING →
       schemas.LeaveApproval.approved_by approval = employee_id →
       fails_with (request (leaves.approve_leave_request leave_id approval) db').1
                  NotFound).
Proof.
  intros Hr db'. subst db'. revert Hr. rewrite delete_employee_run.
  destruct (employees db !! employee_id) as [e |] eqn:He; [| done].
  destruct (_ && _); [| done]. intros _. cbn [snd].
  set (db' := {| departments := departments db;
                 employees := delete employee_id (employees db);
                 leave_requests := leave_requests db |}).
  assert (employees db' !! employee_id = None) as Hgone by apply lookup_delete_eq.
  split; [| split; [| split; [| split]]].
  - rewrite get_employee_run, Hgone. by eexists.
  - rewrite delete_employee_run, Hgone. by eexists.
  - rewrite get_employee_leave_summary_run, Hgone. by eexists.
  - intros today nextval lr Hlr. rewrite create_leave_request_run, Hlr, Hgone.
    by eexists.
  - intros leave_id row approval Hrow Hst Happ.
    rewrite approve_leave_request_run, Hrow, Hst, Happ, Hgone. by eexists.
Qed.

Lemma deleted_employee_is_gone_witness :
  let db' := (request (employees.delete_employee 2) sample_db).2 in
  fails_with (request (employees.get_employee sample_validators 2) db').1 NotFound
  ∧ fails_with
      (request (leaves.approve_leave_request 1 (schemas.LeaveApproval.Build true 2 None))
               db').1 NotFound.
Proof.
  intros db'.
  destruct (deleted_employee_is_gone sample_validators 2 sample_db eq_refl)
    as (Hget & _ & _ & _ & Happ).
  split; [exact Hget |].
  apply (Happ 1 (leave 3 (jan 1) (jan 5) PENDING None)); reflexivity.
Defined.

(** X26. A deleted department is gone for every handler. After a successful
    delete of a department, get, the list of its employees and a second
    delete fail with NotFound; the delete itself changed no employee and
    no leave request. *)
Theorem deleted_department_is_gone
    (v : pydantic.validators) (department_id : Z) (db : Database) :
  (request (departments.delete_department department_id) db).1 = Return tt →
  let db' := (request (departments.delete_department department_id) db).2 in
  fails_with (request (departments.get_department department_id) db').1 NotFound
  ∧ fails_with (request (employees.get_employees_by_department v department_id) db').1
               NotFound
  ∧ fails_with (request (departments.delete_department department_id) db').1 NotFound
  ∧ employees db' = employees db
  ∧ leave_requests db' = leave_requests db
  ∧ (∀ k, k ≠ department_id → departments db' !! k = departments db !! k).
Proof.
  intros Hr db'. subst db'. revert Hr. rewrite delete_department_run.
  destruct (departments db !! department_id) as [d |] eqn:Hd; [| done].
  destruct (no_row _ _); [| done]. intros _. cbn [snd].
  set (db' := {| departments := delete department_id (departments db);
                 employees := employees db;
                 leave_requests := leave_requests db |}).
  assert (departments db' !! department_id = None) as Hgone by apply lookup_delete_eq.
  split; [| split; [| split; [| split; [| split]]]]; try done.
  - rewrite get_department_run, Hgone. by eexists.
  - rewrite get_employees_by_department_run, Hgone. by eexists.
  - rewrite delete_department_run, Hgone. by eexists.
  - intros k Hk. cbn [departments db']. by apply lookup_delete_ne.
Qed.

Lemma deleted_department_is_gone_witness :
  fails_with
    (request (departments.get_department 2)
             (request (departments.delete_department 2) sample_db).2).1 NotFound.
Proof.
  destruct (deleted_department_is_gone sample_validators 2 sample_db eq_refl)
    as (Hget & _).
  exact Hget.
Defined.
